(** * ILovePdf client: a shallow embedding of [ilovepdf.py]

    The class [ILovePdf] wraps the ILovePDF HTTP API: it authenticates,
    starts a task, uploads files, triggers processing and downloads the
    result.  Every HTTP call goes through [_realizar_request], which
    re-authenticates and retries when the server reports an expired token.

    The embedding keeps the shape of the Python code.  The object's
    attributes are a record whose late-bound attributes are optional (an
    unset attribute raises [AttributeError]); the outside world (the
    requests sent so far, the file system, the standard output) is threaded
    through an exception-and-state monad; the HTTP server is an arbitrary
    function of the request history. *)

From Stdlib Require Import ZArith Bool Lia PrimFloat.
From Stdlib.Strings Require Import Byte.
From stdpp Require Import base gmap strings list.

Local Open Scope Z_scope.
Set Warnings "-register-all".

(** ** Values exchanged with the server *)

(** What [response.json()] decodes to: the Python image of a JSON text.
    A Python [dict] is an association list in insertion order, with each
    key at most once. *)
Inductive json : Type :=
| JNull
| JBool (b : bool)
| JInt (z : Z)
| JFloat (f : float)
| JStr (s : string)
| JArr (l : list json)
| JObj (o : list (string * json)).

(** [d[k]] on a dict seen as an association list. *)
Fixpoint dict_get (k : string) (d : list (string * json)) : option json :=
  match d with
  | [] => None
  | (k', v) :: d' => if String.eqb k k' then Some v else dict_get k d'
  end.

(** [d[k] = v]: the value of an existing key is replaced in place, a new key
    goes to the end. *)
Fixpoint dict_set (k : string) (v : json) (d : list (string * json))
  : list (string * json) :=
  match d with
  | [] => [(k, v)]
  | (k', v') :: d' =>
      if String.eqb k k' then (k', v) :: d' else (k', v') :: dict_set k v d'
  end.

(** [d.update(e)] *)
Definition dict_update (d e : list (string * json)) : list (string * json) :=
  fold_left (fun acc kv => dict_set (fst kv) (snd kv) acc) e d.

(** [v == 401] for a decoded JSON value [v]: true on the integer 401 and on
    the float 401.0, false on every other value ([True == 401] is false, a
    string never equals a number). *)
Definition is_401 (v : json) : bool :=
  match v with
  | JInt z => z =? 401
  | JFloat f => PrimFloat.eqb f 401%float
  | _ => false
  end.

(** The part of a [requests.Response] the program reads.  [json_body] is
    what [.json()] decodes from the body, [None] when the body is not JSON
    (the call raises); [text] is the body as [.text] gives it. *)
Record Response : Type := mkResponse {
  status_code : Z;
  content : list byte;
  text : string;
  json_body : option json
}.

(** The keyword arguments the program hands to [requests.request] besides
    [headers]: [data=], [files=] and [json=].  An entry of [files=] is a
    field name and an open file object, given by its name and the content
    not read from it yet: that content is what a request made with it
    carries. *)
Record Kwargs : Type := mkKwargs {
  kw_data : option (list (string * json));
  kw_files : option (list (string * (string * list byte)));
  kw_json : option json
}.

Definition no_kwargs : Kwargs := mkKwargs None None None.

Definition kwargs_data (data : list (string * json)) : Kwargs :=
  mkKwargs (Some data) None None.

(** The same keyword arguments once [requests.request] has been called with
    them: it reads every file object to its end and nothing rewinds them,
    so the objects have nothing left to read. *)
Definition read_to_end (kw : Kwargs) : Kwargs :=
  mkKwargs (kw_data kw)
           (option_map (map (fun entry => (fst entry, (fst (snd entry), []))))
                       (kw_files kw))
           (kw_json kw).

(** One call [requests.request(metodo, url, headers=..., **kwargs)], its
    file objects as they are when the call is made. *)
Record Request : Type := mkRequest {
  req_method : string;
  req_url : string;
  req_headers : gmap string string;
  req_kwargs : Kwargs
}.

(** What [requests.request] does: it returns a response, or raises one of
    its own exceptions (connection refused, timeout, ...), none of which is
    an [HTTPError]. *)
Inductive NetResult : Type :=
| Answer (r : Response)
| Unreachable.

(** ** Exceptions *)

Inductive exn : Type :=
| HTTPError (r : Response)        (* raised by [raise_for_status] *)
| RequestException                (* raised by [requests.request] itself *)
| JSONDecodeError                 (* [.json()] on a body that is not JSON *)
| KeyError (k : string)           (* [d[k]] on a dict without [k] *)
| TypeError                       (* [v[k]] on a value that is not a dict *)
| AttributeError (attr : string)  (* [self.attr] before it was assigned *)
| OSError (path : string)         (* [open] failed *)
| RecursionError.                 (* the interpreter's recursion limit *)

Inductive Outcome (A : Type) : Type :=
| Ret (a : A)
| Raise (e : exn).
Arguments Ret {A} a.
Arguments Raise {A} e.

(** ** The object and the world *)

(** The attributes of an [ILovePdf] instance.  [__init__] assigns the first
    four; [arquivos], [tarefa], [tarefa_id] and [servidor_url] exist only
    once [_nova_tarefa] has assigned them. *)
Record ILovePdf : Type := mkILovePdf {
  base_url : string;
  chave_publica : string;
  chave_secreta : string;
  headers : gmap string string;
  arquivos : option (list json);
  tarefa : option string;
  tarefa_id : option json;
  servidor_url : option string
}.

(** What the program can change or observe outside the object: the requests
    sent so far (oldest first), the files on disk and the lines printed.
    A file is kept under one name, whatever paths lead to it (see [file_of]
    below). *)
Record World : Type := mkWorld {
  trace : list Request;
  fs : gmap string (list byte);
  stdout : list string
}.

Record State : Type := mkState {
  self : ILovePdf;
  world : World
}.

(** ** The monad of methods: state, with exceptions that keep the state *)

Definition M (A : Type) : Type := State -> Outcome A * State.

Definition ret {A} (a : A) : M A := fun st => (Ret a, st).

Definition raise {A} (e : exn) : M A := fun st => (Raise e, st).

Definition bind {A B} (m : M A) (k : A -> M B) : M B :=
  fun st =>
    match m st with
    | (Ret a, st') => k a st'
    | (Raise e, st') => (Raise e, st')
    end.

Declare Scope py_scope.
Delimit Scope py_scope with py.
Notation "x <- m ;; k" := (bind m (fun x => k))
  (at level 100, m at next level, right associativity) : py_scope.
Notation "m ;; k" := (bind m (fun _ => k))
  (at level 100, right associativity) : py_scope.
Local Open Scope py_scope.

(** [self.attr] for an attribute that [__init__] assigns. *)
Definition attr {A} (proj : ILovePdf -> A) : M A :=
  fun st => (Ret (proj (self st)), st).

Definition set_self (f : ILovePdf -> ILovePdf) : M unit :=
  fun st => (Ret tt, mkState (f (self st)) (world st)).

(** [self.attr] for an attribute that only [_nova_tarefa] assigns: reading
    it earlier raises. *)
Definition get_attr {A} (name : string) (proj : ILovePdf -> option A) : M A :=
  fun st =>
    match proj (self st) with
    | Some a => (Ret a, st)
    | None => (Raise (AttributeError name), st)
    end.

Definition with_headers (h : gmap string string) (s : ILovePdf) : ILovePdf :=
  mkILovePdf (base_url s) (chave_publica s) (chave_secreta s) h
             (arquivos s) (tarefa s) (tarefa_id s) (servidor_url s).

Definition with_arquivos (l : list json) (s : ILovePdf) : ILovePdf :=
  mkILovePdf (base_url s) (chave_publica s) (chave_secreta s) (headers s)
             (Some l) (tarefa s) (tarefa_id s) (servidor_url s).

Definition with_tarefa (t : string) (s : ILovePdf) : ILovePdf :=
  mkILovePdf (base_url s) (chave_publica s) (chave_secreta s) (headers s)
             (arquivos s) (Some t) (tarefa_id s) (servidor_url s).

Definition with_tarefa_id (i : json) (s : ILovePdf) : ILovePdf :=
  mkILovePdf (base_url s) (chave_publica s) (chave_secreta s) (headers s)
             (arquivos s) (tarefa s) (Some i) (servidor_url s).

Definition with_servidor_url (u : string) (s : ILovePdf) : ILovePdf :=
  mkILovePdf (base_url s) (chave_publica s) (chave_secreta s) (headers s)
             (arquivos s) (tarefa s) (tarefa_id s) (Some u).

Definition with_chave_secreta (k : string) (s : ILovePdf) : ILovePdf :=
  mkILovePdf (base_url s) (chave_publica s) k (headers s)
             (arquivos s) (tarefa s) (tarefa_id s) (servidor_url s).

(** An expression that reads no attribute and touches nothing outside, but
    may raise. *)
Definition eval {A} (o : Outcome A) : M A := fun st => (o, st).

(** The state once [req] has been sent, and once [line] has been printed. *)
Definition sent (req : Request) (st : State) : State :=
  mkState (self st)
          (mkWorld (trace (world st) ++ [req]) (fs (world st))
                   (stdout (world st))).

Definition printed (line : string) (st : State) : State :=
  mkState (self st)
          (mkWorld (trace (world st)) (fs (world st))
                   (stdout (world st) ++ [line])).

(** [print(line)] *)
Definition print (line : string) : M unit :=
  fun st => (Ret tt, printed line st).

(** [response.json()] *)
Definition response_json (r : Response) : Outcome json :=
  match json_body r with
  | Some j => Ret j
  | None => Raise JSONDecodeError
  end.

(** [v[k]] with a string key: only a dict can be indexed by a string. *)
Definition subscript (v : json) (k : string) : Outcome json :=
  match v with
  | JObj d =>
      match dict_get k d with
      | Some x => Ret x
      | None => Raise (KeyError k)
      end
  | _ => Raise TypeError
  end.

(** [response.json()[k]] *)
Definition json_field (r : Response) (k : string) : Outcome json :=
  match response_json r with
  | Ret j => subscript j k
  | Raise e => Raise e
  end.

(** [response.raise_for_status()] raises on client and server errors, that
    is on the status codes 400 to 599, and on no other. *)
Definition raise_for_status (r : Response) : bool :=
  (400 <=? status_code r) && (status_code r <? 600).

(** [s[:-4]]: all but the last four characters, the empty string when [s]
    has fewer than four. *)
Definition drop_last4 (s : string) : string :=
  String.substring 0 (String.length s - 4) s.

(** The output path [comprimir] ends up with (lines 50-51):
    [not arquivo_output] holds on [None] and on the empty string. *)
Definition resolve_output (arquivo_input : string)
    (arquivo_output : option string) : string :=
  match arquivo_output with
  | Some out => if String.eqb out ""
                then drop_last4 arquivo_input +:+ "_compresso.pdf"
                else out
  | None => drop_last4 arquivo_input +:+ "_compresso.pdf"
  end.

(** ** The methods of the class

    The environment is a parameter: [serve] is the server, which answers a
    request knowing every request sent before it; [py_repr] is Python's
    rendering of a decoded JSON value that is not a string, as an f-string
    interpolates it; [writable] tells which paths [open(path, "wb")]
    accepts; [file_of] gives the file a path leads to, under the one name
    the world keeps it ("report.pdf" and "./report.pdf" lead to the same
    file). *)
Section Methods.

Variable serve : list Request -> Request -> NetResult.
Variable py_repr : json -> string.
Variable writable : string -> bool.
Variable file_of : string -> string.

(** [open(path, "rb")], read by the upload: the file must exist. *)
Definition open_rb (path : string) : M (list byte) :=
  fun st =>
    match fs (world st) !! file_of path with
    | Some bytes => (Ret bytes, st)
    | None => (Raise (OSError path), st)
    end.

(** [f"{v}"]: a string is interpolated as it is. *)
Definition py_str (v : json) : string :=
  match v with
  | JStr s => s
  | _ => py_repr v
  end.

(** [requests.request(metodo, url, headers=hdrs, **kw)] *)
Definition requests_request (metodo url : string)
    (hdrs : gmap string string) (kw : Kwargs) : M Response :=
  fun st =>
    let req := mkRequest metodo url hdrs kw in
    match serve (trace (world st)) req with
    | Answer r => (Ret r, sent req st)
    | Unreachable => (Raise RequestException, sent req st)
    end.

(** The body of [_novo_token] (lines 193-199), over the request wrapper it
    calls. *)
Definition novo_token_with
    (request : string -> string -> Kwargs -> M Response) : M unit :=
  base <- attr base_url ;;
  let url := base +:+ "/auth" in
  chave <- attr chave_publica ;;
  let data := [("public_key", JStr chave)] in
  r <- request "POST" url (kwargs_data data) ;;
  response <- eval (response_json r) ;;
  token <- eval (subscript response "token") ;;
  set_self (with_headers {[ "Authorization" := "Bearer " +:+ py_str token ]}).

(** [_realizar_request] (lines 171-188).  [fuel] is the depth of nested
    activations of the wrapper the interpreter still allows; at depth zero
    the call raises [RecursionError], which no handler of the program
    catches.  The call of line 183 passes the keyword arguments it was
    given, the very objects: a file object among them has been read by the
    request of line 172. *)
Fixpoint _realizar_request (fuel : nat) (metodo url : string) (kw : Kwargs)
  : M Response :=
  match fuel with
  | O => raise RecursionError
  | S fuel' =>
      hdrs <- attr headers ;;
      response <- requests_request metodo url hdrs kw ;;
      if raise_for_status response then
        j <- eval (response_json response) ;;
        status <- eval (subscript j "status") ;;
        if is_401 status then
          print "Token expirado. Solicitando novo..." ;;
          novo_token_with (_realizar_request fuel') ;;
          _realizar_request fuel' metodo url (read_to_end kw)
        else
          print (text response) ;;
          raise (HTTPError response)
      else ret response
  end.

Definition _novo_token (fuel : nat) : M unit :=
  novo_token_with (_realizar_request fuel).

(** [__init__] (lines 26-34): the new object, then the first token.  The
    object exists for the caller only when the outcome is [Ret]. *)
Definition __init__ (fuel : nat) (chave_publica chave_secreta : string)
    (w : World) : Outcome unit * State :=
  _novo_token fuel
    (mkState (mkILovePdf "https://api.ilovepdf.com/v1" chave_publica
                         chave_secreta ∅ None None None None) w).

(** [_nova_tarefa] (lines 70-81) *)
Definition _nova_tarefa (fuel : nat) (tarefa : string) : M unit :=
  set_self (with_arquivos []) ;;
  set_self (with_tarefa tarefa) ;;
  base <- attr base_url ;;
  let url := base +:+ "/start/" +:+ tarefa in
  r <- _realizar_request fuel "GET" url no_kwargs ;;
  response <- eval (response_json r) ;;
  servidor <- eval (subscript response "server") ;;
  task <- eval (subscript response "task") ;;
  set_self (with_tarefa_id task) ;;
  set_self (with_servidor_url ("https://" +:+ py_str servidor +:+ "/v1")).

(** [_adicionar_arquivo] (lines 93-105) *)
Definition _adicionar_arquivo (fuel : nat) (arquivo : string) : M unit :=
  servidor <- get_attr "servidor_url" servidor_url ;;
  let url := servidor +:+ "/upload" in
  task <- get_attr "tarefa_id" tarefa_id ;;
  let data := [("task", task)] in
  f <- open_rb arquivo ;;
  r <- _realizar_request fuel "POST" url
         (mkKwargs (Some data) (Some [("file", (arquivo, f))]) None) ;;
  response <- eval (response_json r) ;;
  enviados <- get_attr "arquivos" arquivos ;;
  nome <- eval (subscript response "server_filename") ;;
  set_self (with_arquivos
              (enviados ++ [JObj [("server_filename", nome);
                                  ("filename", JStr arquivo)]])).

(** [_processar] (lines 118-125) *)
Definition _processar (fuel : nat) (kwargs : list (string * json)) : M unit :=
  servidor <- get_attr "servidor_url" servidor_url ;;
  let url := servidor +:+ "/process" in
  task <- get_attr "tarefa_id" tarefa_id ;;
  tool <- get_attr "tarefa" tarefa ;;
  enviados <- get_attr "arquivos" arquivos ;;
  let json := dict_update [("task", task); ("tool", JStr tool);
                           ("files", JArr enviados)] kwargs in
  r <- _realizar_request fuel "POST" url
         (mkKwargs None None (Some (JObj json))) ;;
  _ <- eval (response_json r) ;;
  ret tt.

(** [open(path, "wb")] followed by [f.write(bytes)]: the file [path] leads
    to is created or replaced. *)
Definition write_wb (path : string) (bytes : list byte) : M unit :=
  fun st =>
    let w := world st in
    if writable path
    then (Ret tt, mkState (self st)
                          (mkWorld (trace w) (<[file_of path := bytes]> (fs w))
                                   (stdout w)))
    else (Raise (OSError path), st).

(** [_download] (lines 138-143) *)
Definition _download (fuel : nat) (arquivo_output : string) : M unit :=
  servidor <- get_attr "servidor_url" servidor_url ;;
  task <- get_attr "tarefa_id" tarefa_id ;;
  let url := servidor +:+ "/download/" +:+ py_str task in
  response <- _realizar_request fuel "GET" url no_kwargs ;;
  write_wb arquivo_output (content response).

(** [comprimir] (lines 50-56) *)
Definition comprimir (fuel : nat) (arquivo_input : string)
    (arquivo_output : option string) : M unit :=
  let arquivo_output := resolve_output arquivo_input arquivo_output in
  _nova_tarefa fuel "compress" ;;
  _adicionar_arquivo fuel arquivo_input ;;
  _processar fuel [] ;;
  _download fuel arquivo_output.

(** *** A client of the class

    What a program does with an [ILovePdf] object: it constructs one and
    calls methods on it, each call guarded by a [try] that notes how the
    call ended.  What such a program can observe is how each call ended and
    the world it leaves behind. *)
Inductive Call : Type :=
| CallComprimir (arquivo_input : string) (arquivo_output : option string)
| CallNovaTarefa (tarefa : string)
| CallAdicionarArquivo (arquivo : string)
| CallProcessar (kwargs : list (string * json))
| CallDownload (arquivo_output : string).

Definition call (fuel : nat) (c : Call) : M unit :=
  match c with
  | CallComprimir i o => comprimir fuel i o
  | CallNovaTarefa t => _nova_tarefa fuel t
  | CallAdicionarArquivo a => _adicionar_arquivo fuel a
  | CallProcessar kw => _processar fuel kw
  | CallDownload o => _download fuel o
  end.

Fixpoint calls (fuel : nat) (cs : list Call) (st : State)
  : list (Outcome unit) * State :=
  match cs with
  | [] => ([], st)
  | c :: cs' =>
      let (o, st1) := call fuel c st in
      let (os, st2) := calls fuel cs' st1 in
      (o :: os, st2)
  end.

Definition client (fuel : nat) (chave_publica chave_secreta : string)
    (cs : list Call) (w : World) : list (Outcome unit) * World :=
  match __init__ fuel chave_publica chave_secreta w with
  | (Ret _, st) => let (os, st') := calls fuel cs st in (Ret tt :: os, world
      st')
  | (Raise e, st) => ([Raise e], world st)
  end.

End Methods.

(** ** Notions used by the statements *)

(** The object as [__init__] leaves it: no task has been started. *)
Definition Idle (s : ILovePdf) : Prop :=
  arquivos s = None /\ tarefa s = None /\ tarefa_id s = None /\
  servidor_url s = None.

(** The header dict [{"Authorization": "Bearer <t>"}]. *)
Definition bearer (t : string) : gmap string string :=
  {[ "Authorization" := "Bearer " +:+ t ]}.

(** The keyword arguments of a wrapper call as its last request finds them,
    [pre] being the requests the call made before that one: untouched when
    there is none, their file objects read to the end otherwise. *)
Definition kwargs_after (pre : list Request) (kw : Kwargs) : Kwargs :=
  match pre with
  | [] => kw
  | _ :: _ => read_to_end kw
  end.

(** A header dict of that form, whatever the token. *)
Definition is_bearer (h : gmap string string) : Prop := exists t, h = bearer t.

(** The same state around an object holding another secret key. *)
Definition resecret (k : string) (st : State) : State :=
  mkState (with_chave_secreta k (self st)) (world st).

(** A method is blind to the secret key when running it around another
    secret key gives the same outcome and the same state around that key. *)
Definition secret_blind {A} (m : M A) : Prop :=
  forall k st, m (resecret k st) = (fst (m st), resecret k (snd (m st))).

(** [st'] differs from [st] at most by requests sent, lines printed and the
    header dict: the files and every other attribute are those of [st]. *)
Definition frame (st st' : State) : Prop :=
  fs (world st') = fs (world st) /\
  self st' = with_headers (headers (self st')) (self st) /\
  exists new, trace (world st') = trace (world st) ++ new.

(** A server whose every answer, to the auth request too, reports an
    expired token: an error status and a body whose [status] is 401. *)
Definition always_expired (serve : list Request -> Request -> NetResult)
  : Prop :=
  forall tr req, exists r v,
    serve tr req = Answer r /\ raise_for_status r = true /\
    json_field r "status" = Ret v /\ is_401 v = true.

(** [st'] has the keys and base URL of [st], the requests of [st] followed
    by new ones, and the files of [st] except perhaps the files in [P]. *)
Definition within (P : string -> Prop) (st st' : State) : Prop :=
  base_url (self st') = base_url (self st) /\
  chave_publica (self st') = chave_publica (self st) /\
  chave_secreta (self st') = chave_secreta (self st) /\
  (exists new, trace (world st') = trace (world st) ++ new) /\
  forall file, ~ P file -> fs (world st') !! file = fs (world st) !! file.

(** A method that stays [within P], from every state and however it ends. *)
Definition confined {A} (P : string -> Prop) (m : M A) : Prop :=
  forall st, within P st (snd (m st)).

(** The path a call may write: the output path of [comprimir] and of
    [_download]; the other methods open no file for writing. *)
Definition call_output (c : Call) : option string :=
  match c with
  | CallComprimir i o => Some (resolve_output i o)
  | CallDownload o => Some o
  | _ => None
  end.

(** The requests of [reqs] that go to [url]. *)
Definition sent_to (url : string) (reqs : list Request) : list Request :=
  List.filter (fun r => String.eqb (req_url r) url) reqs.

(** ** Test doubles

    Small servers and states on which the methods can be run. *)

(** The test servers send strings wherever the client interpolates a value,
    so the rendering of other values is never consulted on them. *)
Definition demo_repr (v : json) : string := "".

Definition demo_writable (path : string) : bool :=
  negb (String.eqb path "/proc/locked.pdf").

(** Paths on the test machine: a leading "./" changes nothing. *)
Definition demo_file_of (path : string) : string :=
  if String.prefix "./" path
  then String.substring 2 (String.length path - 2) path
  else path.

Definition json_response (status : Z) (j : json) : Response :=
  mkResponse status [] "" (Some j).

Definition binary_response (status : Z) (bytes : list byte) : Response :=
  mkResponse status bytes "" None.

Definition demo_auth_url : string := "https://api.ilovepdf.com/v1/auth".

Definition demo_pdf : list byte := ["%"; "P"; "D"; "F"; "-"; "1"]%byte.

Definition demo_result : list byte := ["%"; "P"; "D"; "F"]%byte.

(** The answer of the API to a request whose token has expired. *)
Definition expired : Response :=
  mkResponse 401 [] "{status: 401}" (Some (JObj [("status", JInt 401)])).

(** A server that answers every endpoint of one compress task. *)
Definition demo_server (tr : list Request) (req : Request) : NetResult :=
  let u := req_url req in
  if String.eqb u demo_auth_url then
    Answer (json_response 200 (JObj [("token", JStr "tok1")]))
  else if String.eqb u "https://api.ilovepdf.com/v1/start/compress" then
    Answer (json_response 200 (JObj [("server", JStr "s1.ilovepdf.com");
                                     ("task", JStr "t1")]))
  else if String.eqb u "https://s1.ilovepdf.com/v1/upload" then
    Answer (json_response 200 (JObj [("server_filename", JStr "f1.pdf")]))
  else if String.eqb u "https://s1.ilovepdf.com/v1/process" then
    Answer (json_response 200 (JObj [("status", JStr "TaskSuccess")]))
  else if String.eqb u "https://s1.ilovepdf.com/v1/download/t1" then
    Answer (binary_response 200 demo_result)
  else Answer (binary_response 404 []).

(** A server that hands out the token [fresh] and accepts no other. *)
Definition renewing_server (tr : list Request) (req : Request) : NetResult :=
  if String.eqb (req_url req) demo_auth_url then
    Answer (json_response 200 (JObj [("token", JStr "fresh")]))
  else if bool_decide (req_headers req !! "Authorization" = Some "Bearer fresh")
  then demo_server tr req
  else Answer expired.

(** A server that reports every token as expired while its auth endpoint is
    out of order. *)
Definition auth_down_server (tr : list Request) (req : Request) : NetResult :=
  if String.eqb (req_url req) demo_auth_url then
    Answer (mkResponse 500 [] "{status: 500}"
                       (Some (JObj [("status", JInt 500)])))
  else Answer expired.

(** A server that answers 300 with the body of an expired token. *)
Definition multiple_choices_server (tr : list Request) (req : Request)
  : NetResult :=
  Answer (mkResponse 300 [] "{status: 401}" (Some (JObj [("status", JInt
      401)]))).

(** A server that reports tokens as expired until the client has asked for
    a token twice. *)
Definition second_token_server (tr : list Request) (req : Request)
  : NetResult :=
  if String.eqb (req_url req) demo_auth_url then
    Answer (json_response 200 (JObj [("token", JStr "tok1")]))
  else if (2 <=? length (sent_to demo_auth_url tr))%nat
  then demo_server tr req
  else Answer expired.

(** A server that reports an expired token whatever it is asked. *)
Definition refusing_server (tr : list Request) (req : Request) : NetResult :=
  Answer expired.

(** A server that hands out tokens and then reports each of them as
    expired. *)
Definition always_401_server (tr : list Request) (req : Request) : NetResult :=
  if String.eqb (req_url req) demo_auth_url then
    Answer (json_response 200 (JObj [("token", JStr "tok1")]))
  else Answer expired.

Definition demo_world : World :=
  mkWorld [] {[ "report.pdf" := demo_pdf ]} [].

(** An object as [__init__] leaves it on [demo_server]. *)
Definition demo_idle : ILovePdf :=
  mkILovePdf "https://api.ilovepdf.com/v1" "project_public" "secret_key"
             {[ "Authorization" := "Bearer tok1" ]} None None None None.

(** The same object once a compress task has been started. *)
Definition demo_started : ILovePdf :=
  mkILovePdf "https://api.ilovepdf.com/v1" "project_public" "secret_key"
             {[ "Authorization" := "Bearer tok1" ]} (Some []) (Some "compress")
             (Some (JStr "t1")) (Some "https://s1.ilovepdf.com/v1").

Definition demo_start_url : string :=
  "https://api.ilovepdf.com/v1/start/compress".

(** The requests of the test object, under the header dict [h]. *)
Definition demo_start_request (h : gmap string string) : Request :=
  mkRequest "GET" demo_start_url h no_kwargs.

Definition demo_auth_request (h : gmap string string) : Request :=
  mkRequest "POST" demo_auth_url h
            (kwargs_data [("public_key", JStr "project_public")]).

Definition demo_process_request (h : gmap string string) : Request :=
  mkRequest "POST" "https://s1.ilovepdf.com/v1/process" h
            (mkKwargs None None
               (Some (JObj [("task", JStr "t1"); ("tool", JStr "compress");
                            ("files", JArr [])]))).

Definition demo_download_request (h : gmap string string) : Request :=
  mkRequest "GET" "https://s1.ilovepdf.com/v1/download/t1" h no_kwargs.

(** The test object before and after [_nova_tarefa "compress"] on
    [demo_server]. *)
Definition demo_state_idle : State := mkState demo_idle demo_world.

Definition demo_state_started : State :=
  mkState demo_started
          (mkWorld [demo_start_request (bearer "tok1")] (fs demo_world) []).

(** The test object once "report.pdf" has been uploaded on [demo_server]. *)
Definition demo_upload_request (h : gmap string string) : Request :=
  mkRequest "POST" "https://s1.ilovepdf.com/v1/upload" h
            (mkKwargs (Some [("task", JStr "t1")])
                      (Some [("file", ("report.pdf", demo_pdf))]) None).

Definition demo_record : json :=
  JObj [("server_filename", JStr "f1.pdf"); ("filename", JStr "report.pdf")].

Definition demo_state_uploaded : State :=
  mkState (with_arquivos [demo_record] demo_started)
          (mkWorld [demo_start_request (bearer "tok1");
                    demo_upload_request (bearer "tok1")]
                   (fs demo_world) []).

(** The answer of [auth_down_server] to an auth request. *)
Definition auth_down : Response :=
  mkResponse 500 [] "{status: 500}" (Some (JObj [("status", JInt 500)])).

(** * Facts about the request wrapper *)

Section Wrapper.

Variable serve : list Request -> Request -> NetResult.
Variable py_repr : json -> string.

Local Abbreviation rr := (_realizar_request serve py_repr).
Local Abbreviation novo_token := (_novo_token serve py_repr).

Lemma rr_O m u kw st : rr 0 m u kw st = (Raise RecursionError, st).
Proof. reflexivity. Qed.

(** [_novo_token], one call of the wrapper at a time. *)
Lemma novo_token_eq n st :
  novo_token n st =
  match rr n "POST" (base_url (self st) +:+ "/auth")
           (kwargs_data [("public_key", JStr (chave_publica (self st)))]) st
               with
  | (Ret r, st') =>
      match json_field r "token" with
      | Ret tok =>
          (Ret tt, mkState (with_headers (bearer (py_str py_repr tok)) (self
              st'))
                           (world st'))
      | Raise e => (Raise e, st')
      end
  | (Raise e, st') => (Raise e, st')
  end.
Proof.
  unfold _novo_token, novo_token_with, bind, attr, eval, set_self, json_field.
  destruct (rr n _ _ _ st) as [[r|e] st']; [|reflexivity].
  destruct (response_json r) as [j|e]; [|reflexivity].
  destruct (subscript j "token"); reflexivity.
Qed.

(** [_realizar_request], one activation at a time. *)
Lemma rr_S n m u kw st :
  rr (S n) m u kw st =
  let req := mkRequest m u (headers (self st)) kw in
  match serve (trace (world st)) req with
  | Unreachable => (Raise RequestException, sent req st)
  | Answer r =>
      if raise_for_status r then
        match json_field r "status" with
        | Raise e => (Raise e, sent req st)
        | Ret v =>
            if is_401 v then
              match novo_token n (printed "Token expirado. Solicitando novo..."
                                          (sent req st)) with
              | (Ret _, st') => rr n m u (read_to_end kw) st'
              | (Raise e, st') => (Raise e, st')
              end
            else (Raise (HTTPError r), printed (text r) (sent req st))
        end
      else (Ret r, sent req st)
  end.
Proof.
  cbn [_realizar_request].
  unfold bind at 1 2. unfold attr, requests_request. cbv zeta.
  destruct (serve _ _) as [r|]; [|reflexivity].
  destruct (raise_for_status r); [|reflexivity].
  unfold bind at 1 2, eval, json_field.
  destruct (response_json r) as [j|e]; [|reflexivity].
  destruct (subscript j "status") as [v|e]; [|reflexivity].
  destruct (is_401 v); [|reflexivity].
  unfold bind at 1 2, print. fold (_novo_token serve py_repr n).
  reflexivity.
Qed.

(** *** The wrapper touches neither the files nor the task attributes *)

Lemma frame_refl st : frame st st.
Proof.
  unfold frame. split; [reflexivity|]. split.
  - destruct st as [[] ?]. reflexivity.
  - exists []. symmetry. apply app_nil_r.
Qed.

Lemma frame_trans st1 st2 st3 : frame st1 st2 -> frame st2 st3 -> frame st1 st3.
Proof.
  intros (Hf1 & Hs1 & n1 & Ht1) (Hf2 & Hs2 & n2 & Ht2).
  split; [congruence|]. split.
  - rewrite Hs2, Hs1. reflexivity.
  - exists (n1 ++ n2). rewrite Ht2, Ht1. symmetry. apply app_assoc.
Qed.

Lemma frame_sent req st : frame st (sent req st).
Proof.
  split; [reflexivity|]. split.
  - destruct st as [[] ?]. reflexivity.
  - exists [req]. reflexivity.
Qed.

Lemma frame_printed line st : frame st (printed line st).
Proof.
  split; [reflexivity|]. split.
  - destruct st as [[] ?]. reflexivity.
  - exists []. symmetry. apply app_nil_r.
Qed.

Lemma frame_headers h st :
  frame st (mkState (with_headers h (self st)) (world st)).
Proof.
  split; [reflexivity|]. split; [reflexivity|].
  exists []. symmetry. apply app_nil_r.
Qed.

Lemma frame_sent_printed req line st : frame st (printed line (sent req st)).
Proof.
  eapply frame_trans; [apply frame_sent|apply frame_printed].
Qed.

Create HintDb frame.
Local Hint Resolve frame_refl frame_sent frame_printed frame_headers
  frame_sent_printed : frame.

Lemma rr_frame n : forall m u kw st o st',
  rr n m u kw st = (o, st') -> frame st st'.
Proof.
  induction n as [|n IH]; intros m u kw st o st' H.
  - rewrite rr_O in H. inversion H; subst. auto with frame.
  - rewrite rr_S in H. cbv zeta in H.
    destruct (serve _ _) as [r|]; [|inversion H; subst; auto with frame].
    destruct (raise_for_status r); [|inversion H; subst; auto with frame].
    destruct (json_field r "status") as [v|e];
      [|inversion H; subst; auto with frame].
    destruct (is_401 v).
    + rewrite novo_token_eq in H.
      destruct (rr n "POST" _ _ _) as [[r2|e2] st2] eqn:Hauth.
      * apply IH in Hauth.
        assert (frame st st2) as Hst2.
        { eapply frame_trans; [|exact Hauth]. auto with frame. }
        destruct (json_field r2 "token") as [tok|e3].
        -- apply IH in H. eapply frame_trans; [|exact H].
           eapply frame_trans; [exact Hst2|]. auto with frame.
        -- inversion H; subst. exact Hst2.
      * apply IH in Hauth. inversion H; subst.
        eapply frame_trans; [|exact Hauth]. auto with frame.
    + inversion H; subst. auto with frame.
Qed.

(** *** What a returned response is *)

Lemma read_to_end_twice kw : read_to_end (read_to_end kw) = read_to_end kw.
Proof.
  unfold read_to_end. cbn. f_equal.
  destruct (kw_files kw) as [l|]; [|reflexivity]. cbn. f_equal.
  rewrite map_map. reflexivity.
Qed.

(** Keyword arguments without file object are the same after a request. *)
Lemma read_to_end_no_files kw : kw_files kw = None -> read_to_end kw = kw.
Proof.
  destruct kw as [d f j]. cbn. intros ->. reflexivity.
Qed.

Lemma kwargs_after_no_files pre kw :
  kw_files kw = None -> kwargs_after pre kw = kw.
Proof.
  intros H. destruct pre; [reflexivity|]. apply read_to_end_no_files, H.
Qed.

(** A response the wrapper returns is the server's answer to the last request
    sent, that request is the one asked for under the header dict the object
    holds on return, and its status is not an error status. *)
Lemma rr_ret n : forall m u kw st r st',
  rr n m u kw st = (Ret r, st') ->
  raise_for_status r = false /\
  exists pre,
    let req := mkRequest m u (headers (self st')) (kwargs_after pre kw) in
    trace (world st') = (trace (world st) ++ pre) ++ [req] /\
    serve (trace (world st) ++ pre) req = Answer r.
Proof.
  induction n as [|n IH]; intros m u kw st r st' H.
  - rewrite rr_O in H. discriminate.
  - rewrite rr_S in H. cbv zeta in H.
    destruct (serve _ _) as [r1|] eqn:Hserve; [|discriminate].
    destruct (raise_for_status r1) eqn:Hst.
    + destruct (json_field r1 "status") as [v|e]; [|discriminate].
      destruct (is_401 v); [|discriminate].
      destruct (novo_token n _) as [[[]|e2] st2] eqn:Hauth; [|discriminate].
      destruct (IH _ _ _ _ _ _ H) as (Hok & pre & Htr & Hans).
      split; [exact Hok|].
      assert (frame (sent (mkRequest m u (headers (self st)) kw) st) st2)
        as (_ & _ & new & Hnew).
      { rewrite novo_token_eq in Hauth.
        destruct (rr n "POST" _ _ _) as [[r2|e2] st3] eqn:Hrr; [|discriminate].
        apply rr_frame in Hrr.
        destruct (json_field r2 "token"); [|discriminate].
        inversion Hauth; subst.
        eapply frame_trans; [|apply frame_headers].
        eapply frame_trans; [apply frame_printed|exact Hrr]. }
      assert (kwargs_after pre (read_to_end kw) = read_to_end kw) as Hkw
        by (destruct pre; [reflexivity|apply read_to_end_twice]).
      cbn in Hnew. cbv zeta in Htr, Hans. rewrite Hkw, Hnew in Htr, Hans.
      exists ((mkRequest m u (headers (self st)) kw :: new) ++ pre).
      cbv zeta. cbn [app kwargs_after].
      assert (trace (world st)
              ++ mkRequest m u (headers (self st)) kw :: new ++ pre
              = ((trace (world st) ++ [mkRequest m u (headers (self st)) kw])
                 ++ new) ++ pre) as ->
        by (rewrite <- !app_assoc; reflexivity).
      split; assumption.
    + inversion H; subst. split; [exact Hst|].
      exists []. cbn. rewrite app_nil_r. split; [reflexivity|exact Hserve].
Qed.

(** The same for a call without file object: the last request is the one
    asked for. *)
Lemma rr_ret_no_files n m u kw st r st' :
  kw_files kw = None ->
  rr n m u kw st = (Ret r, st') ->
  raise_for_status r = false /\
  exists pre,
    let req := mkRequest m u (headers (self st')) kw in
    trace (world st') = (trace (world st) ++ pre) ++ [req] /\
    serve (trace (world st) ++ pre) req = Answer r.
Proof.
  intros Hno H. destruct (rr_ret _ _ _ _ _ _ _ H) as (Hok & pre & Hrest).
  split; [exact Hok|]. exists pre.
  rewrite (kwargs_after_no_files pre kw Hno) in Hrest. exact Hrest.
Qed.

End Wrapper.

(** * The task life cycle *)

Section Lifecycle.

Variable serve : list Request -> Request -> NetResult.
Variable py_repr : json -> string.
Variable writable : string -> bool.
Variable file_of : string -> string.

Local Abbreviation rr := (_realizar_request serve py_repr).

(** [__init__] leaves an object on which no task has been started. *)
Lemma init_idle fuel pk sk w o st :
  __init__ serve py_repr fuel pk sk w = (o, st) -> Idle (self st).
Proof.
  unfold __init__. rewrite novo_token_eq.
  destruct (rr fuel _ _ _ _) as [[r|e] st1] eqn:Hrr.
  - apply rr_frame in Hrr. destruct Hrr as (_ & Hself & _).
    destruct (json_field r "token"); intros H; inversion H; subst; cbn;
      rewrite Hself; repeat split.
  - apply rr_frame in Hrr. destruct Hrr as (_ & Hself & _).
    intros H; inversion H; subst. rewrite Hself. repeat split.
Qed.

(** C3: on an object in the Idle state (no task started), [_adicionar_arquivo]
    fails on its first line, reading the unset attribute [servidor_url]: the
    call raises [AttributeError] (the precondition failure of the class) and
    the state is the one before the call, so no request was sent and no file
    was opened. *)
Theorem C3_adicionar_arquivo_idle fuel arquivo st :
  Idle (self st) ->
  _adicionar_arquivo serve py_repr file_of fuel arquivo st
  = (Raise (AttributeError "servidor_url"), st).
Proof.
  intros (_ & _ & _ & Hurl).
  unfold _adicionar_arquivo, bind, get_attr. rewrite Hurl. reflexivity.
Qed.

(** C10: when the GET of [_download] raises, [_download] raises the same
    exception in the same state, and the files are those before the call:
    the output path is neither created nor modified. *)
Theorem C10_download_failed_request_keeps_files
    fuel out st servidor task e st1 :
  servidor_url (self st) = Some servidor ->
  tarefa_id (self st) = Some task ->
  rr fuel "GET" (servidor +:+ "/download/" +:+ py_str py_repr task) no_kwargs st
  = (Raise e, st1) ->
  _download serve py_repr writable file_of fuel out st = (Raise e, st1) /\
  fs (world st1) = fs (world st) /\
  fs (world st1) !! file_of out = fs (world st) !! file_of out.
Proof.
  intros Hs Ht Hrr.
  assert (fs (world st1) = fs (world st)) as Hfs
    by (apply rr_frame in Hrr; apply Hrr).
  split; [|split; [exact Hfs|rewrite Hfs; reflexivity]].
  unfold _download, bind, get_attr. rewrite Hs, Ht, Hrr. reflexivity.
Qed.

(** What a returning [_download] has done. *)
Lemma download_ret fuel out st st' :
  _download serve py_repr writable file_of fuel out st = (Ret tt, st') ->
  exists servidor task r pre,
    let req := mkRequest "GET" (servidor +:+ "/download/" +:+ py_str py_repr
        task)
                         (headers (self st')) no_kwargs in
    servidor_url (self st) = Some servidor /\
    tarefa_id (self st) = Some task /\
    trace (world st') = (trace (world st) ++ pre) ++ [req] /\
    serve (trace (world st) ++ pre) req = Answer r /\
    fs (world st') = <[file_of out := content r]> (fs (world st)) /\
    fs (world st') !! file_of out = Some (content r).
Proof.
  unfold _download, bind, get_attr. intros H.
  destruct (servidor_url (self st)) as [servidor|]; [|discriminate].
  destruct (tarefa_id (self st)) as [task|]; [|discriminate].
  destruct (rr fuel _ _ _ _) as [[r|e] st1] eqn:Hrr; [|discriminate].
  unfold write_wb in H. destruct (writable out); [|discriminate].
  inversion H; subst; clear H.
  destruct (rr_ret_no_files _ _ _ _ _ no_kwargs _ _ _ eq_refl Hrr) as (_ & pre &
      Htr & Hans).
  apply rr_frame in Hrr. destruct Hrr as (Hfs & _ & _).
  exists servidor, task, r, pre. cbn. rewrite Hfs.
  repeat split; try assumption. apply lookup_insert_eq.
Qed.

(** When the server answers the download request with a status that is not
    an error and the output path can be written, [_download] returns. *)
Lemma download_returns fuel out st servidor task r :
  let req := mkRequest "GET" (servidor +:+ "/download/" +:+ py_str py_repr task)
                       (headers (self st)) no_kwargs in
  servidor_url (self st) = Some servidor ->
  tarefa_id (self st) = Some task ->
  serve (trace (world st)) req = Answer r ->
  raise_for_status r = false ->
  writable out = true ->
  _download serve py_repr writable file_of (S fuel) out st
  = (Ret tt,
     mkState (self st)
             (mkWorld (trace (world st) ++ [req])
                      (<[file_of out := content r]> (fs (world st)))
                      (stdout (world st)))).
Proof.
  intros req Hs Ht Hserve Hok Hw.
  unfold _download, bind, get_attr. rewrite Hs, Ht, rr_S. cbv zeta.
  fold req. rewrite Hserve, Hok. unfold write_wb. rewrite Hw. reflexivity.
Qed.

(** C8: a call of [_download] that returns has sent, as its last request,
    GET {servidor_url}/download/{tarefa_id}; the server's answer to that
    request is a response [r], and the files after the call are those before
    it with [out] holding exactly [content r], whatever [out] held before.
    And the call does return, after that one request, when the server
    answers it with a status that is not an error and [out] can be
    written. *)
Theorem C8_download_writes_response_body fuel out st :
  (forall st',
     _download serve py_repr writable file_of fuel out st = (Ret tt, st') ->
     exists servidor task r pre,
       let req := mkRequest "GET"
                    (servidor +:+ "/download/" +:+ py_str py_repr task)
                    (headers (self st')) no_kwargs in
       servidor_url (self st) = Some servidor /\
       tarefa_id (self st) = Some task /\
       trace (world st') = (trace (world st) ++ pre) ++ [req] /\
       serve (trace (world st) ++ pre) req = Answer r /\
       fs (world st') = <[file_of out := content r]> (fs (world st)) /\
       fs (world st') !! file_of out = Some (content r)) /\
  (forall servidor task r,
     let req := mkRequest "GET"
                  (servidor +:+ "/download/" +:+ py_str py_repr task)
                  (headers (self st)) no_kwargs in
     servidor_url (self st) = Some servidor ->
     tarefa_id (self st) = Some task ->
     serve (trace (world st)) req = Answer r ->
     raise_for_status r = false ->
     writable out = true ->
     _download serve py_repr writable file_of (S fuel) out st
     = (Ret tt,
        mkState (self st)
                (mkWorld (trace (world st) ++ [req])
                         (<[file_of out := content r]> (fs (world st)))
                         (stdout (world st))))).
Proof.
  split.
  - intros st'. apply download_ret.
  - intros servidor task r. apply download_returns.
Qed.

(** What a returning [_nova_tarefa] has done. *)
Lemma nova_tarefa_ret fuel t st st' :
  _nova_tarefa serve py_repr fuel t st = (Ret tt, st') ->
  exists r d servidor task pre,
    let req := mkRequest "GET" (base_url (self st) +:+ "/start/" +:+ t)
                         (headers (self st')) no_kwargs in
    trace (world st') = (trace (world st) ++ pre) ++ [req] /\
    serve (trace (world st) ++ pre) req = Answer r /\
    json_body r = Some (JObj d) /\
    dict_get "server" d = Some servidor /\
    dict_get "task" d = Some task /\
    arquivos (self st') = Some [] /\
    tarefa (self st') = Some t /\
    tarefa_id (self st') = Some task /\
    servidor_url (self st')
    = Some ("https://" +:+ py_str py_repr servidor +:+ "/v1").
Proof.
  unfold _nova_tarefa, bind, set_self, attr, eval. cbn [self world base_url
      with_tarefa with_arquivos].
  intros H.
  destruct (rr fuel _ _ _ _) as [[r|e] st1] eqn:Hrr; [|discriminate].
  unfold response_json in H.
  destruct (json_body r) as [j|] eqn:Hj; [|discriminate].
  destruct j as [| | | | |l|d]; try discriminate. cbn [subscript] in H.
  destruct (dict_get "server" d) as [servidor|] eqn:Hsv; [|discriminate].
  destruct (dict_get "task" d) as [task|] eqn:Htk; [|discriminate].
  inversion H; subst; clear H.
  destruct (rr_ret_no_files _ _ _ _ _ no_kwargs _ _ _ eq_refl Hrr) as (_ & pre &
      Htr & Hans).
  apply rr_frame in Hrr. destruct Hrr as (_ & Hself & _).
  exists r, d, servidor, task, pre. cbn in *.
  rewrite Hself. cbn. repeat split; assumption.
Qed.

(** When the server answers the start request with a status that is not an
    error and a JSON object holding [server] and [task], [_nova_tarefa]
    returns. *)
Lemma nova_tarefa_returns fuel t st r d servidor task :
  let req := mkRequest "GET" (base_url (self st) +:+ "/start/" +:+ t)
                       (headers (self st)) no_kwargs in
  serve (trace (world st)) req = Answer r ->
  raise_for_status r = false ->
  json_body r = Some (JObj d) ->
  dict_get "server" d = Some servidor ->
  dict_get "task" d = Some task ->
  _nova_tarefa serve py_repr (S fuel) t st
  = (Ret tt,
     mkState (mkILovePdf (base_url (self st)) (chave_publica (self st))
                         (chave_secreta (self st)) (headers (self st))
                         (Some []) (Some t) (Some task)
                         (Some ("https://" +:+ py_str py_repr servidor
                                +:+ "/v1")))
             (world (sent req st))).
Proof.
  intros req Hserve Hok Hj Hsv Htk.
  unfold _nova_tarefa, bind, set_self, attr.
  cbn [self world base_url with_tarefa with_arquivos].
  rewrite rr_S. cbv zeta.
  cbn [self world trace headers with_tarefa with_arquivos].
  fold req. rewrite Hserve, Hok.
  unfold eval, response_json. rewrite Hj. cbn [subscript].
  rewrite Hsv, Htk. reflexivity.
Qed.

(** C7: a call of [_nova_tarefa] that returns has sent, as its last request,
    GET {base_url}/start/{tarefa}, answered by a JSON object with [server]
    and [task]; afterwards the list of uploaded files is empty and the task
    name, task id and server URL are the new ones.  The object has one slot
    for each, so the new task replaces whatever task it held.  And the call
    does return, after that one request, when the server answers it with a
    status that is not an error and such an object. *)
Theorem C7_nova_tarefa_resets_task fuel t st :
  (forall st',
     _nova_tarefa serve py_repr fuel t st = (Ret tt, st') ->
     exists r d servidor task pre,
       let req := mkRequest "GET" (base_url (self st) +:+ "/start/" +:+ t)
                            (headers (self st')) no_kwargs in
       trace (world st') = (trace (world st) ++ pre) ++ [req] /\
       serve (trace (world st) ++ pre) req = Answer r /\
       json_body r = Some (JObj d) /\
       dict_get "server" d = Some servidor /\
       dict_get "task" d = Some task /\
       arquivos (self st') = Some [] /\
       tarefa (self st') = Some t /\
       tarefa_id (self st') = Some task /\
       servidor_url (self st')
       = Some ("https://" +:+ py_str py_repr servidor +:+ "/v1")) /\
  (forall r d servidor task,
     let req := mkRequest "GET" (base_url (self st) +:+ "/start/" +:+ t)
                          (headers (self st)) no_kwargs in
     serve (trace (world st)) req = Answer r ->
     raise_for_status r = false ->
     json_body r = Some (JObj d) ->
     dict_get "server" d = Some servidor ->
     dict_get "task" d = Some task ->
     _nova_tarefa serve py_repr (S fuel) t st
     = (Ret tt,
        mkState (mkILovePdf (base_url (self st)) (chave_publica (self st))
                            (chave_secreta (self st)) (headers (self st))
                            (Some []) (Some t) (Some task)
                            (Some ("https://" +:+ py_str py_repr servidor
                                   +:+ "/v1")))
                (world (sent req st)))).
Proof.
  split.
  - intros st'. apply nova_tarefa_ret.
  - intros r d servidor task. apply nova_tarefa_returns.
Qed.

End Lifecycle.

(** * The default output path of [comprimir] *)

Lemma string_length_app (s t : string) :
  String.length (s +:+ t) = (String.length s + String.length t)%nat.
Proof.
  induction s as [|c s IH]; [reflexivity|].
  change (S (String.length (s +:+ t)) = S (String.length s + String.length t)).
  rewrite IH. reflexivity.
Qed.

(** Dropping the last four characters of [stem ++ ext] leaves [stem] when
    [ext] has four characters. *)
Lemma drop_last4_app (stem ext : string) :
  String.length ext = 4%nat -> drop_last4 (stem +:+ ext) = stem.
Proof.
  intros Hext. unfold drop_last4.
  induction stem as [|c stem IH].
  - change ("" +:+ ext) with ext. rewrite Hext. cbn. destruct ext; reflexivity.
  - change (String c stem +:+ ext) with (String c (stem +:+ ext)).
    cbn [String.length].
    pose proof (string_length_app stem ext) as Hlen. rewrite Hext in Hlen.
    replace (S (String.length (stem +:+ ext)) - 4)%nat
      with (S (String.length (stem +:+ ext) - 4))%nat by lia.
    cbn [String.substring]. rewrite IH. reflexivity.
Qed.

(** A string of at least four characters is a stem followed by four
    characters. *)
Lemma split_last4 (p : string) :
  (4 <= String.length p)%nat ->
  exists stem ext, p = stem +:+ ext /\ String.length ext = 4%nat.
Proof.
  induction p as [|c p IH]; cbn [String.length]; intros Hlen; [lia|].
  destruct (decide (String.length p = 3%nat)) as [H3|H3].
  - exists "", (String c p). split; [reflexivity|]. cbn [String.length]. lia.
  - destruct IH as (stem & ext & -> & Hext); [lia|].
    exists (String c stem), ext. split; [reflexivity|exact Hext].
Qed.

Section Comprimir.

Variable serve : list Request -> Request -> NetResult.
Variable py_repr : json -> string.
Variable writable : string -> bool.
Variable file_of : string -> string.

(** C5: for an input path [p] of at least four characters, that is a stem
    followed by four characters, a call of [comprimir] without output path
    works on the stem followed by [_compresso.pdf]: it is the call that
    starts a compress task, uploads [p], processes and downloads to that
    path.  So "report.pdf" gives "report_compresso.pdf" and "a.PDF" gives
    "a_compresso.pdf". *)
Theorem C5_comprimir_default_output fuel (p : string) :
  (4 <= String.length p)%nat ->
  exists stem ext,
    p = stem +:+ ext /\ String.length ext = 4%nat /\
    resolve_output p None = stem +:+ "_compresso.pdf" /\
    comprimir serve py_repr writable file_of fuel p None
    = (_nova_tarefa serve py_repr fuel "compress" ;;
       _adicionar_arquivo serve py_repr file_of fuel p ;;
       _processar serve py_repr fuel [] ;;
       _download serve py_repr writable file_of fuel
                 (stem +:+ "_compresso.pdf"))%py /\
    resolve_output "report.pdf" None = "report_compresso.pdf" /\
    resolve_output "a.PDF" None = "a_compresso.pdf".
Proof.
  intros Hlen. destruct (split_last4 p Hlen) as (stem & ext & -> & Hext).
  exists stem, ext.
  assert (resolve_output (stem +:+ ext) None = stem +:+ "_compresso.pdf") as H.
  { unfold resolve_output. rewrite drop_last4_app by exact Hext. reflexivity. }
  split; [reflexivity|]. split; [exact Hext|].
  split; [exact H|]. split; [|split; reflexivity].
  unfold comprimir. rewrite H. reflexivity.
Qed.

End Comprimir.

(** * Tokens and re-authentication *)

Section Tokens.

Variable serve : list Request -> Request -> NetResult.
Variable py_repr : json -> string.

Local Abbreviation rr := (_realizar_request serve py_repr).
Local Abbreviation novo_token := (_novo_token serve py_repr).

(** An activation of the wrapper first sends the request it was asked for,
    under the header dict the object holds at that moment. *)
Lemma rr_first n m u kw st o st' :
  rr (S n) m u kw st = (o, st') ->
  exists rest,
    trace (world st')
    = trace (world st) ++ mkRequest m u (headers (self st)) kw :: rest.
Proof.
  intros H. rewrite rr_S in H. cbv zeta in H.
  set (req := mkRequest m u (headers (self st)) kw) in *.
  assert (frame (sent req st) st') as (_ & _ & rest & Hrest).
  { destruct (serve _ _) as [r|]; [|inversion H; subst; apply frame_refl].
    destruct (raise_for_status r); [|inversion H; subst; apply frame_refl].
    destruct (json_field r "status") as [v|e];
      [|inversion H; subst; apply frame_refl].
    destruct (is_401 v); [|inversion H; subst; apply frame_printed].
    rewrite novo_token_eq in H.
    destruct (rr n "POST" _ _ _) as [[r2|e2] st2] eqn:Hauth.
    - apply rr_frame in Hauth.
      assert (frame (sent req st) st2) as Hst2
        by (eapply frame_trans; [apply frame_printed|exact Hauth]).
      destruct (json_field r2 "token").
      + apply rr_frame in H. eapply frame_trans; [|exact H].
        eapply frame_trans; [exact Hst2|apply frame_headers].
      + inversion H; subst. exact Hst2.
    - apply rr_frame in Hauth. inversion H; subst.
      eapply frame_trans; [apply frame_printed|exact Hauth]. }
  exists rest. rewrite Hrest. cbn. rewrite <- app_assoc. reflexivity.
Qed.

(** Once the object holds a bearer header, every request of the wrapper
    carries one and the object still holds one afterwards. *)
Lemma rr_bearer n : forall m u kw st o st',
  is_bearer (headers (self st)) ->
  rr n m u kw st = (o, st') ->
  is_bearer (headers (self st')) /\
  exists new,
    trace (world st') = trace (world st) ++ new /\
    Forall (fun q => is_bearer (req_headers q)) new.
Proof.
  induction n as [|n IH]; intros m u kw st o st' Hb H.
  - rewrite rr_O in H. inversion H; subst. split; [exact Hb|].
    exists []. rewrite app_nil_r. split; [reflexivity|constructor].
  - rewrite rr_S in H. cbv zeta in H.
    set (req := mkRequest m u (headers (self st)) kw) in *.
    assert (is_bearer (headers (self (sent req st))) /\
            exists new,
              trace (world (sent req st)) = trace (world st) ++ new /\
              Forall (fun q => is_bearer (req_headers q)) new) as Hsent.
    { split; [exact Hb|]. exists [req]. split; [reflexivity|].
      constructor; [exact Hb|constructor]. }
    destruct (serve _ _) as [r|]; [|inversion H; subst; exact Hsent].
    destruct (raise_for_status r); [|inversion H; subst; exact Hsent].
    destruct (json_field r "status") as [v|e];
      [|inversion H; subst; exact Hsent].
    destruct (is_401 v); [|inversion H; subst; exact Hsent].
    destruct Hsent as (_ & new0 & Hnew0 & Hall0).
    rewrite novo_token_eq in H.
    destruct (rr n "POST" _ _ _) as [[r2|e2] st2] eqn:Hauth.
    + apply IH in Hauth; [|exact Hb].
      destruct Hauth as (Hb2 & new1 & Hnew1 & Hall1).
      cbn [printed world trace] in Hnew1. cbn [sent world trace] in Hnew0,
          Hnew1.
      destruct (json_field r2 "token") as [tok|e3].
      * apply IH in H; [|eexists; reflexivity].
        destruct H as (Hb3 & new2 & Hnew2 & Hall2). split; [exact Hb3|].
        exists (([req] ++ new1) ++ new2). cbn [world] in Hnew2.
        rewrite Hnew2, Hnew1, <- !app_assoc. split; [reflexivity|].
        rewrite !Forall_app. repeat split; try assumption.
        constructor; [exact Hb|constructor].
      * inversion H; subst. split; [exact Hb2|].
        exists ([req] ++ new1). rewrite Hnew1, <- !app_assoc.
        split; [reflexivity|]. rewrite Forall_app. split; [|assumption].
        constructor; [exact Hb|constructor].
    + apply IH in Hauth; [|exact Hb].
      destruct Hauth as (Hb2 & new1 & Hnew1 & Hall1).
      cbn [printed sent world trace] in Hnew1.
      inversion H; subst. split; [exact Hb2|].
      exists ([req] ++ new1). rewrite Hnew1, <- !app_assoc.
      split; [reflexivity|]. rewrite Forall_app. split; [|assumption].
      constructor; [exact Hb|constructor].
Qed.

(** C6: when the auth endpoint answers the first request with a 2xx status
    and a JSON object holding [token], [__init__] returns after sending that
    one request, POST {base}/auth with the public key as only form field,
    and the object holds the header dict Authorization: Bearer <token>.
    From then on, as long as the object holds that header dict, a call of
    the wrapper sends its request under it, and every further request of
    that call carries a bearer header. *)
Theorem C6_init_authenticates_once fuel pk sk w r d tok :
  let auth := mkRequest "POST" "https://api.ilovepdf.com/v1/auth" ∅
                        (kwargs_data [("public_key", JStr pk)]) in
  let s := mkILovePdf "https://api.ilovepdf.com/v1" pk sk
                      (bearer (py_str py_repr tok)) None None None None in
  serve (trace w) auth = Answer r ->
  200 <= status_code r < 300 ->
  json_body r = Some (JObj d) ->
  dict_get "token" d = Some tok ->
  __init__ serve py_repr (S fuel) pk sk w
  = (Ret tt, mkState s (mkWorld (trace w ++ [auth]) (fs w) (stdout w))) /\
  forall n m u kw st o st',
    headers (self st) = headers s ->
    rr (S n) m u kw st = (o, st') ->
    exists rest,
      trace (world st')
      = trace (world st)
        ++ mkRequest m u (bearer (py_str py_repr tok)) kw :: rest /\
      Forall (fun q => is_bearer (req_headers q)) rest.
Proof.
  intros auth s Hserve Hstatus Hjson Htok. split.
  - unfold __init__. rewrite novo_token_eq, rr_S. cbn [self world trace base_url
      chave_publica headers]. cbv zeta.
    change ("https://api.ilovepdf.com/v1" +:+ "/auth")
      with "https://api.ilovepdf.com/v1/auth".
    fold auth. rewrite Hserve.
    assert (raise_for_status r = false) as ->.
    { unfold raise_for_status. apply andb_false_iff. left.
      apply Z.leb_gt. lia. }
    unfold json_field, response_json. rewrite Hjson. cbn [subscript].
    rewrite Htok. reflexivity.
  - intros n m u kw st o st' Hh H. cbn [headers s] in Hh.
    destruct (rr_first _ _ _ _ _ _ _ H) as (rest & Hrest).
    rewrite Hh in Hrest.
    exists rest. split; [exact Hrest|].
    apply rr_bearer in H; [|rewrite Hh; eexists; reflexivity].
    destruct H as (_ & new & Hnew & Hall).
    rewrite Hrest in Hnew. apply app_inv_head in Hnew. subst new.
    inversion Hall; subst. assumption.
Qed.

End Tokens.

(** * Expired tokens *)

Section Expiry.

Variable serve : list Request -> Request -> NetResult.
Variable py_repr : json -> string.

Local Abbreviation rr := (_realizar_request serve py_repr).

Lemma raise_for_status_error r :
  400 <= status_code r < 600 -> raise_for_status r = true.
Proof.
  intros H. unfold raise_for_status. apply andb_true_iff. split.
  - apply Z.leb_le. lia.
  - apply Z.ltb_lt. lia.
Qed.

Lemma raise_for_status_success r :
  200 <= status_code r < 300 -> raise_for_status r = false.
Proof.
  intros H. unfold raise_for_status. apply andb_false_iff. left.
  apply Z.leb_gt. lia.
Qed.

Lemma json_field_obj r d k v :
  json_body r = Some (JObj d) -> dict_get k d = Some v ->
  json_field r k = Ret v.
Proof.
  intros Hj Hk. unfold json_field, response_json. rewrite Hj. cbn.
  rewrite Hk. reflexivity.
Qed.

(** A call whose request is answered with an error status and a [status]
    of 401: the wrapper prints, re-authenticates, and on success calls
    itself with the keyword arguments as the request left them. *)
Lemma rr_expired n m u kw st r1 v :
  let req := mkRequest m u (headers (self st)) kw in
  serve (trace (world st)) req = Answer r1 ->
  raise_for_status r1 = true ->
  json_field r1 "status" = Ret v ->
  is_401 v = true ->
  rr (S n) m u kw st
  = match _novo_token serve py_repr n
            (printed "Token expirado. Solicitando novo..." (sent req st)) with
    | (Ret _, st') => rr n m u (read_to_end kw) st'
    | (Raise e, st') => (Raise e, st')
    end.
Proof.
  intros req H1 Hs Hv H401. rewrite rr_S. cbv zeta. fold req.
  rewrite H1, Hs, Hv, H401. reflexivity.
Qed.

(** A re-authentication whose request is answered with a 2xx status and a
    token: one request, and the header dict replaced. *)
Lemma novo_token_returns n st r d tok :
  let auth := mkRequest "POST" (base_url (self st) +:+ "/auth")
                (headers (self st))
                (kwargs_data
                   [("public_key", JStr (chave_publica (self st)))]) in
  serve (trace (world st)) auth = Answer r ->
  200 <= status_code r < 300 ->
  json_body r = Some (JObj d) ->
  dict_get "token" d = Some tok ->
  _novo_token serve py_repr (S n) st
  = (Ret tt,
     mkState (with_headers (bearer (py_str py_repr tok)) (self st))
             (world (sent auth st))).
Proof.
  intros auth H Hs Hj Hd. rewrite novo_token_eq, rr_S. cbv zeta. fold auth.
  rewrite H, (raise_for_status_success _ Hs), (json_field_obj _ _ _ _ Hj Hd).
  reflexivity.
Qed.

(** C1 (as the code has it): take a call of the wrapper whose request is
    answered with a 4xx or 5xx status and a JSON object whose [status] is
    401.  Whatever follows, the next request is the re-authentication,
    POST {base}/auth with the public key, still under the old header.  When
    the re-authentication raises, the call raises the same exception in the
    same state, so nothing is sent after it; this is what happens when the
    auth endpoint answers with an error status whose [status] is not 401.
    When the auth endpoint answers with a 2xx status and a JSON object
    holding [token], the header dict is replaced and the wrapper calls
    itself once with the same method, url and keyword arguments, whatever
    the answer to that request: the third request is the first one again
    under the fresh header (a file object among the arguments is the one
    already read; without file objects the arguments are unchanged).  When
    that request is answered with a 2xx status, the call has sent exactly
    these three requests, the object holds the fresh header and the caller
    gets that last response. *)
Theorem C1_expired_token_one_reauth_one_retry fuel m u kw st r1 d1 v :
  let tr := trace (world st) in
  let req := mkRequest m u (headers (self st)) kw in
  let auth := mkRequest "POST" (base_url (self st) +:+ "/auth")
                (headers (self st))
                (kwargs_data
                   [("public_key", JStr (chave_publica (self st)))]) in
  let line := "Token expirado. Solicitando novo..." in
  serve tr req = Answer r1 ->
  400 <= status_code r1 < 600 ->
  json_body r1 = Some (JObj d1) ->
  dict_get "status" d1 = Some v ->
  is_401 v = true ->
  (exists rest,
     trace (world (snd (_realizar_request serve py_repr (S (S fuel))
                                          m u kw st)))
     = tr ++ req :: auth :: rest) /\
  (forall e st2,
     _novo_token serve py_repr (S fuel) (printed line (sent req st))
     = (Raise e, st2) ->
     _realizar_request serve py_repr (S (S fuel)) m u kw st = (Raise e, st2)) /\
  (forall r2 v2,
     serve (tr ++ [req]) auth = Answer r2 ->
     400 <= status_code r2 < 600 ->
     json_field r2 "status" = Ret v2 ->
     is_401 v2 = false ->
     _realizar_request serve py_repr (S (S fuel)) m u kw st
     = (Raise (HTTPError r2),
        mkState (self st)
                (mkWorld (tr ++ [req; auth]) (fs (world st))
                         (stdout (world st) ++ [line; text r2])))) /\
  (forall r2 d2 tok,
     let fresh := bearer (py_str py_repr tok) in
     let retry := mkRequest m u fresh (read_to_end kw) in
     let st2 := mkState (with_headers fresh (self st))
                        (mkWorld (tr ++ [req; auth]) (fs (world st))
                                 (stdout (world st) ++ [line])) in
     serve (tr ++ [req]) auth = Answer r2 ->
     200 <= status_code r2 < 300 ->
     json_body r2 = Some (JObj d2) ->
     dict_get "token" d2 = Some tok ->
     _realizar_request serve py_repr (S (S fuel)) m u kw st
     = _realizar_request serve py_repr (S fuel) m u (read_to_end kw) st2 /\
     (exists rest,
        trace (world (snd (_realizar_request serve py_repr (S (S fuel))
                                             m u kw st)))
        = tr ++ req :: auth :: retry :: rest) /\
     (kw_files kw = None -> retry = mkRequest m u fresh kw) /\
     (forall r3,
        serve (tr ++ [req; auth]) retry = Answer r3 ->
        200 <= status_code r3 < 300 ->
        _realizar_request serve py_repr (S (S fuel)) m u kw st
        = (Ret r3,
           mkState (with_headers fresh (self st))
                   (mkWorld (tr ++ [req; auth; retry]) (fs (world st))
                            (stdout (world st) ++ [line]))))).
Proof.
  intros tr req auth line H1 Hs1 Hj1 Hd1 Hv.
  pose proof (rr_expired (S fuel) m u kw st r1 v H1
                (raise_for_status_error _ Hs1)
                (json_field_obj _ _ _ _ Hj1 Hd1) Hv) as Hstep.
  fold req in Hstep. fold line in Hstep.
  assert (forall l : list Request, (tr ++ [req]) ++ auth :: l
                                   = tr ++ req :: auth :: l) as Happ
    by (intros l; rewrite <- app_assoc; reflexivity).
  split; [|split; [|split]].
  - rewrite Hstep, novo_token_eq.
    destruct (rr (S fuel) "POST" _ _ (printed line (sent req st)))
      as [[r2|e2] st2] eqn:Hauth;
      destruct (rr_first _ _ _ _ _ _ _ _ _ Hauth) as (rest & Hrest);
      cbn [printed sent self world trace] in Hrest; fold auth in Hrest;
      fold tr in Hrest; rewrite Happ in Hrest.
    + destruct (json_field r2 "token") as [tok|e3]; [|eauto].
      match goal with |- context [rr (S fuel) m u (read_to_end kw) ?s] =>
        destruct (rr (S fuel) m u (read_to_end kw) s) as [o st3] eqn:Hretry
      end.
      apply rr_frame in Hretry. destruct Hretry as (_ & _ & new & Hnew).
      cbn [snd world] in *. rewrite Hnew, Hrest.
      exists (rest ++ new). rewrite <- app_assoc. reflexivity.
    + eauto.
  - intros e st2 Hraise. rewrite Hstep, Hraise. reflexivity.
  - intros r2 v2 H2 Hs2 Hv2 H401. rewrite Hstep, novo_token_eq, rr_S.
    cbv zeta. cbn [printed sent self world trace]. fold auth. fold tr.
    rewrite H2, (raise_for_status_error _ Hs2), Hv2, H401.
    unfold printed, sent. cbn [self world trace fs stdout].
    rewrite <- !app_assoc. reflexivity.
  - intros r2 d2 tok fresh retry st2 H2 Hs2 Hj2 Hd2.
    assert (_realizar_request serve py_repr (S (S fuel)) m u kw st
            = _realizar_request serve py_repr (S fuel) m u (read_to_end kw) st2)
      as Hretry.
    { rewrite Hstep.
      rewrite (novo_token_returns fuel (printed line (sent req st)) r2 d2 tok);
        try assumption.
      unfold st2, printed, sent. cbn [self world trace fs stdout].
      rewrite <- app_assoc. reflexivity. }
    split; [exact Hretry|]. split; [|split].
    + rewrite Hretry.
      destruct (_realizar_request serve py_repr (S fuel) m u (read_to_end kw)
                                  st2) as [o st3] eqn:H3.
      destruct (rr_first _ _ _ _ _ _ _ _ _ H3) as (rest & Hrest).
      exists rest. cbn [snd]. rewrite Hrest. unfold st2.
      cbn [self world trace headers with_headers]. fold fresh. fold retry.
      rewrite <- app_assoc. reflexivity.
    + intros Hno. unfold retry. rewrite (read_to_end_no_files kw Hno).
      reflexivity.
    + intros r3 H3 Hs3. rewrite Hretry, rr_S. cbv zeta. unfold st2 at 1 2.
      cbn [self world trace headers with_headers]. fold fresh. fold retry.
      rewrite H3, (raise_for_status_success _ Hs3).
      unfold st2, sent. cbn [self world trace fs stdout].
      rewrite <- app_assoc. reflexivity.
Qed.

(** C4 (as the code has it): [_processar] has no guard on the list of
    uploaded files.  With a started task and an empty list it sends
    POST {servidor_url}/process with the JSON body {task, tool, files: []}
    updated by the extra options; when the server answers that request with
    a 2xx status and a JSON body the call returns, having sent that one
    request. *)
Theorem C4_processar_sends_empty_file_list
    fuel kwargs st servidor task tool :
  let req := mkRequest "POST" (servidor +:+ "/process") (headers (self st))
               (mkKwargs None None
                  (Some (JObj (dict_update [("task", task); ("tool", JStr tool);
                                            ("files", JArr [])] kwargs)))) in
  servidor_url (self st) = Some servidor ->
  tarefa_id (self st) = Some task ->
  tarefa (self st) = Some tool ->
  arquivos (self st) = Some [] ->
  (exists o st' rest,
     _processar serve py_repr (S fuel) kwargs st = (o, st') /\
     trace (world st') = trace (world st) ++ req :: rest) /\
  (forall r j,
     serve (trace (world st)) req = Answer r ->
     200 <= status_code r < 300 ->
     json_body r = Some j ->
     _processar serve py_repr (S fuel) kwargs st = (Ret tt, sent req st)).
Proof.
  intros req Hs Ht Hn Ha. split.
  - unfold _processar, bind, get_attr. rewrite Hs, Ht, Hn, Ha. fold req.
    destruct (rr (S fuel) _ _ _ st) as [[r|e] st1] eqn:Hrr.
    + destruct (rr_first _ _ _ _ _ _ _ _ _ Hrr) as (rest & Hrest).
      unfold eval. destruct (response_json r); eauto.
    + destruct (rr_first _ _ _ _ _ _ _ _ _ Hrr) as (rest & Hrest). eauto.
  - intros r j Hserve Hstatus Hj.
    unfold _processar, bind, get_attr. rewrite Hs, Ht, Hn, Ha.
    rewrite rr_S. cbv zeta. fold req. rewrite Hserve.
    rewrite (raise_for_status_success _ Hstatus).
    unfold eval, response_json. rewrite Hj. reflexivity.
Qed.

End Expiry.

(** ** A server that never accepts a token *)

(** Against [always_401_server] a call of the wrapper with room for [n]
    nested activations sends its request [n] times and ends by exhausting
    them. *)
Lemma always_401_exhausts n : forall u kw st,
  String.eqb u demo_auth_url = false ->
  base_url (self st) = "https://api.ilovepdf.com/v1" ->
  exists st',
    _realizar_request always_401_server demo_repr n "GET" u kw st
    = (Raise RecursionError, st') /\
    length (sent_to u (trace (world st')))
    = (length (sent_to u (trace (world st))) + n)%nat.
Proof.
  induction n as [|n IH]; intros u kw st Hu Hbase.
  - exists st. rewrite rr_O. split; [reflexivity|lia].
  - rewrite rr_S. cbv zeta. unfold always_401_server at 1.
    cbn [req_url]. rewrite Hu.
    change (raise_for_status expired) with true.
    change (json_field expired "status") with (Ret (JInt 401)).
    change (is_401 (JInt 401)) with true. cbv iota.
    set (req := mkRequest "GET" u (headers (self st)) kw).
    assert (length (sent_to u (trace (world st) ++ [req]))
            = S (length (sent_to u (trace (world st))))) as Hcount.
    { unfold sent_to. rewrite List.filter_app, length_app. cbn.
      rewrite String.eqb_refl. cbn. lia. }
    rewrite novo_token_eq. cbn [printed sent self world trace].
    rewrite Hbase.
    change ("https://api.ilovepdf.com/v1" +:+ "/auth") with demo_auth_url.
    destruct n as [|n].
    + rewrite rr_O. eexists. split; [reflexivity|].
      cbn [printed sent self world trace]. rewrite Hcount. lia.
    + rewrite rr_S. cbv zeta. unfold always_401_server at 1.
      cbn [req_url]. rewrite String.eqb_refl.
      change (raise_for_status (json_response 200 _)) with false. cbv iota.
      change (json_field (json_response 200 (JObj [("token", JStr "tok1")]))
                         "token") with (Ret (JStr "tok1")).
      cbv iota.
      match goal with
      | |- context [_realizar_request _ _ (S n) "GET" u (read_to_end kw) ?s] =>
          destruct (IH u (read_to_end kw) s Hu) as (st' & Hrr & Hlen);
            [exact Hbase|]
      end.
      exists st'. split; [exact Hrr|]. rewrite Hlen.
      cbn [sent printed self world trace].
      unfold sent_to in *. rewrite !List.filter_app, !length_app.
      cbn [List.filter req_url]. rewrite String.eqb_refl.
      rewrite (String.eqb_sym demo_auth_url u), Hu. cbn [length]. lia.
Qed.

(** C2 (the defect): the server hands out tokens and answers every other
    request with status 401 and the body {status: 401}.  Whatever the depth
    [n] the interpreter allows, the wrapper does not give up by itself: it
    sends the request [n] times, re-authenticating in between, and the call
    ends only because the depth is exhausted. *)
Theorem C2_persistent_401_retries_without_bound (n : nat) :
  exists st',
    _realizar_request always_401_server demo_repr n "GET"
      "https://api.ilovepdf.com/v1/start/compress" no_kwargs
      (mkState demo_idle demo_world)
    = (Raise RecursionError, st') /\
    length (sent_to "https://api.ilovepdf.com/v1/start/compress"
                    (trace (world st'))) = n.
Proof.
  destruct (always_401_exhausts n "https://api.ilovepdf.com/v1/start/compress"
              no_kwargs (mkState demo_idle demo_world))
    as (st' & Hrr & Hlen); [reflexivity|reflexivity|].
  exists st'. split; [exact Hrr|]. rewrite Hlen. reflexivity.
Qed.

(** * The secret key *)

Section Secret.

Variable serve : list Request -> Request -> NetResult.
Variable py_repr : json -> string.
Variable writable : string -> bool.
Variable file_of : string -> string.

Lemma blind_ret {A} (a : A) : secret_blind (ret a).
Proof. intros k st. reflexivity. Qed.

Lemma blind_raise {A} e : secret_blind (@raise A e).
Proof. intros k st. reflexivity. Qed.

Lemma blind_eval {A} (o : Outcome A) : secret_blind (eval o).
Proof. intros k st. reflexivity. Qed.

Lemma blind_print line : secret_blind (print line).
Proof. intros k st. reflexivity. Qed.

Lemma blind_bind {A B} (m : M A) (f : A -> M B) :
  secret_blind m -> (forall a, secret_blind (f a)) -> secret_blind (bind m f).
Proof.
  intros Hm Hf k st. unfold bind. rewrite Hm.
  destruct (m st) as [[a|e] st1]; cbn [fst snd]; [apply Hf|reflexivity].
Qed.

Lemma blind_attr {A} (proj : ILovePdf -> A) :
  (forall k s, proj (with_chave_secreta k s) = proj s) ->
  secret_blind (attr proj).
Proof.
  intros H k st. unfold attr. cbn. rewrite H. reflexivity.
Qed.

Lemma blind_get_attr {A} name (proj : ILovePdf -> option A) :
  (forall k s, proj (with_chave_secreta k s) = proj s) ->
  secret_blind (get_attr name proj).
Proof.
  intros H k st. unfold get_attr. cbn. rewrite H.
  destruct (proj (self st)); reflexivity.
Qed.

Lemma blind_set_self (f : ILovePdf -> ILovePdf) :
  (forall k s, f (with_chave_secreta k s) = with_chave_secreta k (f s)) ->
  secret_blind (set_self f).
Proof.
  intros H k st. unfold set_self, resecret. cbn. rewrite H. reflexivity.
Qed.

Lemma blind_requests_request m u h kw :
  secret_blind (requests_request serve m u h kw).
Proof.
  intros k st. unfold requests_request. cbn.
  destruct (serve _ _); reflexivity.
Qed.

Lemma blind_open_rb path : secret_blind (open_rb file_of path).
Proof.
  intros k st. unfold open_rb. cbn.
  destruct (fs (world st) !! file_of path); reflexivity.
Qed.

Lemma blind_write_wb path bytes : secret_blind (write_wb writable file_of path
    bytes).
Proof.
  intros k st. unfold write_wb. cbn. destruct (writable path); reflexivity.
Qed.

Create HintDb blind.
Local Hint Resolve blind_ret blind_raise blind_eval blind_print
  blind_requests_request blind_open_rb blind_write_wb : blind.

(** Splits a method into its steps; what is left are the calls of other
    methods. *)
Local Ltac blind_steps :=
  repeat first
    [ apply blind_bind; [|intros ?]
    | apply blind_attr; intros ? ?; reflexivity
    | apply blind_get_attr; intros ? ?; reflexivity
    | apply blind_set_self; intros ? ?; reflexivity
    | solve [auto with blind]
    | match goal with |- secret_blind (if ?b then _ else _) => destruct b end ].

Lemma blind_novo_token_with request :
  (forall m u kw, secret_blind (request m u kw)) ->
  secret_blind (novo_token_with py_repr request).
Proof.
  intros H. unfold novo_token_with. blind_steps.
Qed.

Lemma blind_rr n : forall m u kw,
  secret_blind (_realizar_request serve py_repr n m u kw).
Proof.
  induction n as [|n IH]; intros m u kw; cbn [_realizar_request].
  - apply blind_raise.
  - blind_steps.
Qed.

Lemma blind_nova_tarefa fuel t :
  secret_blind (_nova_tarefa serve py_repr fuel t).
Proof. unfold _nova_tarefa. blind_steps; try apply blind_rr. Qed.

Lemma blind_adicionar_arquivo fuel a :
  secret_blind (_adicionar_arquivo serve py_repr file_of fuel a).
Proof. unfold _adicionar_arquivo. blind_steps; try apply blind_rr. Qed.

Lemma blind_processar fuel kw :
  secret_blind (_processar serve py_repr fuel kw).
Proof. unfold _processar. blind_steps; try apply blind_rr. Qed.

Lemma blind_download fuel out :
  secret_blind (_download serve py_repr writable file_of fuel out).
Proof. unfold _download. blind_steps; try apply blind_rr. Qed.

Lemma blind_comprimir fuel i o :
  secret_blind (comprimir serve py_repr writable file_of fuel i o).
Proof.
  unfold comprimir. cbv zeta.
  apply blind_bind; [apply blind_nova_tarefa|intros _].
  apply blind_bind; [apply blind_adicionar_arquivo|intros _].
  apply blind_bind; [apply blind_processar|intros _].
  apply blind_download.
Qed.

Lemma blind_call fuel c : secret_blind (call serve py_repr writable file_of fuel
    c).
Proof.
  destruct c; cbn [call].
  - apply blind_comprimir.
  - apply blind_nova_tarefa.
  - apply blind_adicionar_arquivo.
  - apply blind_processar.
  - apply blind_download.
Qed.

Lemma blind_calls fuel cs : forall k st,
  calls serve py_repr writable file_of fuel cs (resecret k st)
  = (fst (calls serve py_repr writable file_of fuel cs st),
     resecret k (snd (calls serve py_repr writable file_of fuel cs st))).
Proof.
  induction cs as [|c cs IH]; intros k st; cbn [calls]; [reflexivity|].
  rewrite blind_call.
  destruct (call serve py_repr writable file_of fuel c st) as [o st1]. cbn [fst
      snd].
  rewrite IH.
  destruct (calls serve py_repr writable file_of fuel cs st1) as [os st2].
  reflexivity.
Qed.

(** C9: two clients that differ only in the secret key they construct the
    object with see every call end the same way and leave the same world
    behind: the same requests in the same order (the auth request among
    them), the same files, the same output. *)
Theorem C9_secret_key_never_observed fuel pk sk1 sk2 cs w :
  client serve py_repr writable file_of fuel pk sk1 cs w
  = client serve py_repr writable file_of fuel pk sk2 cs w.
Proof.
  unfold client, __init__, _novo_token.
  change (mkState (mkILovePdf "https://api.ilovepdf.com/v1" pk sk1 ∅
                              None None None None) w)
    with (resecret sk1 (mkState (mkILovePdf "https://api.ilovepdf.com/v1" pk
                                            sk2 ∅ None None None None) w)).
  rewrite (blind_novo_token_with _ (blind_rr fuel)).
  destruct (novo_token_with _ _ _) as [[[]|e] st]; cbn [fst snd];
    [|reflexivity].
  rewrite blind_calls.
  destruct (calls _ _ _ _ _ _ st) as [os st']. reflexivity.
Qed.

End Secret.

(** * The statements at work on the test doubles *)

(** On the test object fresh from [__init__], an upload is refused before
    anything is sent. *)
Lemma C3_adicionar_arquivo_idle_witness :
  Idle demo_idle /\
  _adicionar_arquivo demo_server demo_repr demo_file_of 3 "report.pdf"
      demo_state_idle
  = (Raise (AttributeError "servidor_url"), demo_state_idle).
Proof.
  assert (Idle (self demo_state_idle)) as H by (repeat split).
  split; [exact H|].
  exact (C3_adicionar_arquivo_idle demo_server demo_repr demo_file_of 3
      "report.pdf"
           demo_state_idle H).
Defined.

(** The default output path for "report.pdf". *)
Lemma C5_comprimir_default_output_witness :
  exists stem ext,
    "report.pdf" = stem +:+ ext /\ String.length ext = 4%nat /\
    resolve_output "report.pdf" None = stem +:+ "_compresso.pdf".
Proof.
  assert (4 <= String.length "report.pdf")%nat as H by (vm_compute; lia).
  destruct (C5_comprimir_default_output demo_server demo_repr demo_writable
      demo_file_of 3
              "report.pdf" H) as (stem & ext & H1 & H2 & H3 & _).
  exists stem, ext. repeat split; assumption.
Defined.

(** Construction on [demo_server]: one auth request, sent without header,
    and the token stored. *)
Lemma C6_init_authenticates_once_witness :
  __init__ demo_server demo_repr 1 "project_public" "secret_key" demo_world
  = (Ret tt,
     mkState demo_idle
             (mkWorld [demo_auth_request ∅] (fs demo_world) [])).
Proof.
  refine (proj1 (C6_init_authenticates_once demo_server demo_repr 0
                   "project_public" "secret_key" demo_world
                   (json_response 200 (JObj [("token", JStr "tok1")]))
                   [("token", JStr "tok1")] (JStr "tok1") _ _ _ _)).
  - reflexivity.
  - simpl. lia.
  - reflexivity.
  - reflexivity.
Defined.

(** Starting a compress task on [demo_server]. *)
Lemma C7_nova_tarefa_resets_task_witness :
  _nova_tarefa demo_server demo_repr 1 "compress" demo_state_idle
  = (Ret tt, demo_state_started) /\
  arquivos (self demo_state_started) = Some [] /\
  tarefa (self demo_state_started) = Some "compress".
Proof.
  assert (_nova_tarefa demo_server demo_repr 1 "compress" demo_state_idle
          = (Ret tt, demo_state_started)) as H.
  { refine (proj2 (C7_nova_tarefa_resets_task demo_server demo_repr 0
                     "compress" demo_state_idle)
                  (json_response 200 (JObj [("server", JStr "s1.ilovepdf.com");
                                            ("task", JStr "t1")]))
                  [("server", JStr "s1.ilovepdf.com"); ("task", JStr "t1")]
                  (JStr "s1.ilovepdf.com") (JStr "t1") _ _ _ _ _);
      vm_compute; reflexivity. }
  split; [exact H|].
  destruct (proj1 (C7_nova_tarefa_resets_task demo_server demo_repr 1
                     "compress" demo_state_idle) demo_state_started H)
    as (r & d & servidor & task & pre & _ & _ & _ & _ & _ & Ha & Ht & _).
  split; assumption.
Defined.

(** A download over the existing file "report.pdf": afterwards the file
    holds the body of the server's answer. *)
Lemma C8_download_writes_response_body_witness :
  fs (world demo_state_started) !! "report.pdf" = Some demo_pdf /\
  exists st',
    _download demo_server demo_repr demo_writable demo_file_of 1 "report.pdf"
              demo_state_started = (Ret tt, st') /\
    demo_server (trace (world demo_state_started))
                (demo_download_request (bearer "tok1"))
    = Answer (binary_response 200 demo_result) /\
    fs (world st') !! "report.pdf" = Some demo_result.
Proof.
  split; [vm_compute; reflexivity|].
  eexists. split; [|split].
  - refine (proj2 (C8_download_writes_response_body demo_server demo_repr
      demo_writable demo_file_of 0 "report.pdf" demo_state_started)
                  "https://s1.ilovepdf.com/v1" (JStr "t1")
                  (binary_response 200 demo_result) _ _ _ _ _);
      vm_compute; reflexivity.
  - vm_compute. reflexivity.
  - vm_compute. reflexivity.
Defined.

(** A download whose request fails (the token is reported expired and the
    auth endpoint answers 500): "report.pdf" keeps its content. *)
Lemma C10_download_failed_request_keeps_files_witness :
  _download auth_down_server demo_repr demo_writable demo_file_of 2 "report.pdf"
            demo_state_started
  = (Raise (HTTPError auth_down),
     printed "{status: 500}"
       (sent (demo_auth_request (bearer "tok1"))
          (printed "Token expirado. Solicitando novo..."
             (sent (demo_download_request (bearer "tok1"))
                   demo_state_started)))) /\
  fs demo_world !! "report.pdf" = Some demo_pdf.
Proof.
  split; [|vm_compute; reflexivity].
  refine (proj1 (C10_download_failed_request_keeps_files auth_down_server
                   demo_repr demo_writable demo_file_of 2 "report.pdf"
                       demo_state_started
                   "https://s1.ilovepdf.com/v1" (JStr "t1")
                   (HTTPError auth_down) _ eq_refl eq_refl _)).
  vm_compute. reflexivity.
Defined.

(** On [renewing_server] the stale token is refused once: three requests,
    the last one under the fresh token, and its response returned. *)
Lemma C1_expired_token_one_reauth_one_retry_witness :
  _realizar_request renewing_server demo_repr 2 "GET" demo_start_url no_kwargs
                    demo_state_idle
  = (Ret (json_response 200 (JObj [("server", JStr "s1.ilovepdf.com");
                                   ("task", JStr "t1")])),
     mkState (with_headers (bearer "fresh") demo_idle)
             (mkWorld [demo_start_request (bearer "tok1");
                       demo_auth_request (bearer "tok1");
                       demo_start_request (bearer "fresh")]
                      (fs demo_world)
                      ["Token expirado. Solicitando novo..."])).
Proof.
  assert (400 <= status_code expired < 600) as Hs1 by (simpl; lia).
  destruct (C1_expired_token_one_reauth_one_retry renewing_server demo_repr 0
              "GET" demo_start_url no_kwargs demo_state_idle
              expired [("status", JInt 401)] (JInt 401)
              eq_refl Hs1 eq_refl eq_refl eq_refl) as (_ & _ & _ & Hok).
  assert (200 <= status_code (json_response 200
                                (JObj [("token", JStr "fresh")])) < 300)
    as Hs2 by (simpl; lia).
  destruct (Hok (json_response 200 (JObj [("token", JStr "fresh")]))
                [("token", JStr "fresh")] (JStr "fresh")
                eq_refl Hs2 eq_refl eq_refl) as (_ & _ & _ & Hret).
  assert (200 <= status_code
                   (json_response 200 (JObj [("server", JStr "s1.ilovepdf.com");
                                             ("task", JStr "t1")])) < 300)
    as Hs3 by (simpl; lia).
  exact (Hret (json_response 200 (JObj [("server", JStr "s1.ilovepdf.com");
                                        ("task", JStr "t1")]))
              eq_refl Hs3).
Defined.

(** Processing right after the task was started, on [demo_server]. *)
Lemma C4_processar_sends_empty_file_list_witness :
  arquivos (self demo_state_started) = Some [] /\
  _processar demo_server demo_repr 1 [] demo_state_started
  = (Ret tt, sent (demo_process_request (bearer "tok1")) demo_state_started).
Proof.
  split; [reflexivity|].
  refine (proj2 (C4_processar_sends_empty_file_list demo_server demo_repr 0 []
                   demo_state_started "https://s1.ilovepdf.com/v1" (JStr "t1")
                   "compress" _ _ _ _)
                (json_response 200 (JObj [("status", JStr "TaskSuccess")]))
                (JObj [("status", JStr "TaskSuccess")]) _ _ _).
  - reflexivity.
  - reflexivity.
  - reflexivity.
  - reflexivity.
  - vm_compute. reflexivity.
  - simpl. lia.
  - reflexivity.
Defined.

(** C1 as stated fails on three servers, each answering the first request
    with a status outside 2xx and the body {status: 401}.  When the auth
    endpoint is down the wrapper sends one
    auth request and never sends the request again.  When the second token
    is the first one accepted, one call of the wrapper re-authenticates
    twice and sends the request three times.  When the status is 300 the
    wrapper does not re-authenticate at all and returns the response. *)
Lemma C1_counterexample :
  (exists st',
     _realizar_request auth_down_server demo_repr 5 "GET" demo_start_url
                       no_kwargs demo_state_idle
     = (Raise (HTTPError auth_down), st') /\
     trace (world st') = [demo_start_request (bearer "tok1");
                          demo_auth_request (bearer "tok1")]) /\
  (exists r st',
     _realizar_request second_token_server demo_repr 5 "GET" demo_start_url
                       no_kwargs demo_state_idle
     = (Ret r, st') /\
     trace (world st') = [demo_start_request (bearer "tok1");
                          demo_auth_request (bearer "tok1");
                          demo_start_request (bearer "tok1");
                          demo_auth_request (bearer "tok1");
                          demo_start_request (bearer "tok1")]) /\
  (exists r st',
     _realizar_request multiple_choices_server demo_repr 5 "GET" demo_start_url
                       no_kwargs demo_state_idle
     = (Ret r, st') /\
     status_code r = 300 /\
     json_field r "status" = Ret (JInt 401) /\
     trace (world st') = [demo_start_request (bearer "tok1")]).
Proof.
  split; [|split].
  - eexists. split; vm_compute; reflexivity.
  - eexists. eexists. split; vm_compute; reflexivity.
  - eexists. eexists. repeat split; vm_compute; reflexivity.
Qed.

(** C4 as stated fails: with a started task and no uploaded file,
    [_processar] does not fail; it sends the process request with an empty
    file list and returns. *)
Lemma C4_counterexample :
  arquivos (self demo_state_started) = Some [] /\
  _processar demo_server demo_repr 1 [] demo_state_started
  = (Ret tt, sent (demo_process_request (bearer "tok1")) demo_state_started) /\
  trace (world (sent (demo_process_request (bearer "tok1")) demo_state_started))
  = [demo_start_request (bearer "tok1");
     demo_process_request (bearer "tok1")].
Proof.
  split; [reflexivity|]. split; vm_compute; reflexivity.
Qed.

(** * More on the request wrapper *)

Section WrapperOutcomes.

Variable serve : list Request -> Request -> NetResult.
Variable py_repr : json -> string.

Local Abbreviation rr := (_realizar_request serve py_repr).

(** X1: whatever the server does and however the call ends, the wrapper
    leaves the files alone, changes no attribute of the object other than
    [headers], and only adds to the requests sent. *)
Theorem X1_wrapper_changes_only_headers n m u kw st :
  let st' := snd (_realizar_request serve py_repr n m u kw st) in
  fs (world st') = fs (world st) /\
  base_url (self st') = base_url (self st) /\
  chave_publica (self st') = chave_publica (self st) /\
  chave_secreta (self st') = chave_secreta (self st) /\
  arquivos (self st') = arquivos (self st) /\
  tarefa (self st') = tarefa (self st) /\
  tarefa_id (self st') = tarefa_id (self st) /\
  servidor_url (self st') = servidor_url (self st) /\
  exists new, trace (world st') = trace (world st) ++ new.
Proof.
  intros st'. subst st'.
  destruct (rr n m u kw st) as [o st'] eqn:H.
  apply rr_frame in H. destruct H as (Hfs & Hself & Htr). cbn [snd].
  split; [exact Hfs|].
  rewrite Hself. cbn. repeat split. exact Htr.
Qed.

(** X2: a response the wrapper returns never has a 4xx or 5xx status; it is
    the server's answer to the last request sent, and that request has the
    method and url the wrapper was called with, the header dict the object
    holds on return, and the keyword arguments it was called with: as they
    were given when it is the first request of the call, with their file
    objects read to the end when the call has sent a request before, and
    in either case unchanged when they hold no file object. *)
Theorem X2_wrapper_returns_answer_to_last_request n m u kw st r st' :
  _realizar_request serve py_repr n m u kw st = (Ret r, st') ->
  ~ (400 <= status_code r < 600) /\
  exists pre,
    trace (world st')
    = (trace (world st) ++ pre)
      ++ [mkRequest m u (headers (self st')) (kwargs_after pre kw)] /\
    serve (trace (world st) ++ pre)
          (mkRequest m u (headers (self st')) (kwargs_after pre kw))
    = Answer r /\
    (pre = [] -> kwargs_after pre kw = kw) /\
    (pre <> [] -> kwargs_after pre kw = read_to_end kw) /\
    (kw_files kw = None -> kwargs_after pre kw = kw).
Proof.
  intros H. destruct (rr_ret _ _ _ _ _ _ _ _ _ H) as (Hok & pre & Htr & Hans).
  split.
  - intros Hs. rewrite (raise_for_status_error _ Hs) in Hok. discriminate.
  - exists pre. split; [exact Htr|]. split; [exact Hans|]. split; [|split].
    + intros ->. reflexivity.
    + destruct pre; [congruence|reflexivity].
    + apply kwargs_after_no_files.
Qed.

Lemma json_field_not_http r k e :
  json_field r k = Raise e -> forall r', e <> HTTPError r'.
Proof.
  unfold json_field, response_json, subscript. intros H r' ->.
  destruct (json_body r) as [[| | | | | |d]|]; try discriminate.
  destruct (dict_get k d); discriminate.
Qed.

Lemma rr_http_error n : forall m u kw st r st',
  rr n m u kw st = (Raise (HTTPError r), st') ->
  raise_for_status r = true /\
  (exists v, json_field r "status" = Ret v /\ is_401 v = false) /\
  (exists out, stdout (world st') = out ++ [text r]) /\
  exists tr q, trace (world st') = tr ++ [q] /\ serve tr q = Answer r.
Proof.
  induction n as [|n IH]; intros m u kw st r st' H.
  - rewrite rr_O in H. discriminate.
  - rewrite rr_S in H. cbv zeta in H.
    destruct (serve _ _) as [r1|] eqn:Hserve; [|discriminate].
    destruct (raise_for_status r1) eqn:Hst; [|discriminate].
    destruct (json_field r1 "status") as [v|e] eqn:Hv.
    + destruct (is_401 v) eqn:H401.
      * rewrite novo_token_eq in H.
        destruct (_realizar_request serve py_repr n "POST" _ _ _)
          as [[r2|e2] st2] eqn:Hauth.
        -- destruct (json_field r2 "token") as [tok|e3] eqn:Htok.
           ++ exact (IH _ _ _ _ _ _ H).
           ++ inversion H; subst.
              exfalso. exact (json_field_not_http _ _ _ Htok r eq_refl).
        -- inversion H; subst. exact (IH _ _ _ _ _ _ Hauth).
      * inversion H; subst. split; [exact Hst|]. split; [eauto|].
        split; [eexists; reflexivity|].
        eexists _, _. split; [reflexivity|exact Hserve].
    + inversion H; subst.
      exfalso. exact (json_field_not_http _ _ _ Hv r eq_refl).
Qed.

(** X3: when the wrapper raises [HTTPError], the response it carries has a
    4xx or 5xx status and a JSON body whose [status] is not 401, it is the
    server's answer to the last request sent, and its text is the last line
    printed. *)
Theorem X3_wrapper_http_error n m u kw st r st' :
  _realizar_request serve py_repr n m u kw st = (Raise (HTTPError r), st') ->
  400 <= status_code r < 600 /\
  (exists v, json_field r "status" = Ret v /\ is_401 v = false) /\
  (exists out, stdout (world st') = out ++ [text r]) /\
  exists tr q, trace (world st') = tr ++ [q] /\ serve tr q = Answer r.
Proof.
  intros H. destruct (rr_http_error _ _ _ _ _ _ _ H) as (Hst & Hrest).
  split; [|exact Hrest].
  unfold raise_for_status in Hst. apply andb_true_iff in Hst.
  destruct Hst as (H1 & H2). apply Z.leb_le in H1. apply Z.ltb_lt in H2. lia.
Qed.

(** X4: an error answer whose body gives no [status] hides the HTTP error.
    When the request is answered with a 4xx or 5xx status, the wrapper
    raises [JSONDecodeError] if the body is not JSON, [TypeError] if it is
    JSON but not an object, and [KeyError] if the object has no [status];
    in each case after that one request, with nothing printed and the
    object unchanged. *)
Theorem X4_error_body_without_status n m u kw st r :
  serve (trace (world st)) (mkRequest m u (headers (self st)) kw) = Answer r ->
  400 <= status_code r < 600 ->
  (json_body r = None ->
   _realizar_request serve py_repr (S n) m u kw st
   = (Raise JSONDecodeError, sent (mkRequest m u (headers (self st)) kw) st)) /\
  (forall j, json_body r = Some j -> (forall d, j <> JObj d) ->
   _realizar_request serve py_repr (S n) m u kw st
   = (Raise TypeError, sent (mkRequest m u (headers (self st)) kw) st)) /\
  (forall d, json_body r = Some (JObj d) -> dict_get "status" d = None ->
   _realizar_request serve py_repr (S n) m u kw st
   = (Raise (KeyError "status"),
      sent (mkRequest m u (headers (self st)) kw) st)).
Proof.
  intros Hserve Hs.
  assert (forall e, json_field r "status" = Raise e ->
                    rr (S n) m u kw st
                    = (Raise e, sent (mkRequest m u (headers (self st)) kw) st))
    as Hraise.
  { intros e He. rewrite rr_S. cbv zeta.
    rewrite Hserve, (raise_for_status_error _ Hs), He. reflexivity. }
  split; [|split].
  - intros Hj. apply Hraise. unfold json_field, response_json.
    rewrite Hj. reflexivity.
  - intros j Hj Hno. apply Hraise. unfold json_field, response_json.
    rewrite Hj. destruct j; try reflexivity. exfalso. exact (Hno _ eq_refl).
  - intros d Hj Hd. apply Hraise. unfold json_field, response_json.
    rewrite Hj. cbn. rewrite Hd. reflexivity.
Qed.

Lemma always_expired_exhausts n : always_expired serve -> forall m u kw st,
  fst (rr n m u kw st) = Raise RecursionError.
Proof.
  intros Hsrv. induction n as [|n IH]; intros m u kw st; [reflexivity|].
  rewrite rr_S. cbv zeta.
  destruct (Hsrv (trace (world st)) (mkRequest m u (headers (self st)) kw))
    as (r & v & -> & -> & -> & ->).
  rewrite novo_token_eq.
  match goal with
  | |- context [_realizar_request serve py_repr n "POST" ?a ?b ?c] =>
    pose proof (IH "POST" a b c) as Hauth;
    destruct (_realizar_request serve py_repr n "POST" a b c) as [[r2|e2] st2]
  end; cbn [fst] in Hauth; [discriminate|].
  inversion Hauth; subst. reflexivity.
Qed.

(** X5: against a server that answers every request, the auth request
    included, with an error status and a body whose [status] is 401, neither
    the wrapper nor the constructor ever returns or raises an HTTP error:
    whatever the depth allowed, the call ends by exhausting it. *)
Theorem X5_always_expired_never_returns n m u kw st pk sk w :
  always_expired serve ->
  fst (_realizar_request serve py_repr n m u kw st) = Raise RecursionError /\
  fst (__init__ serve py_repr n pk sk w) = Raise RecursionError.
Proof.
  intros Hsrv. split; [apply always_expired_exhausts; exact Hsrv|].
  unfold __init__. rewrite novo_token_eq.
  match goal with
  | |- context [_realizar_request serve py_repr n "POST" ?a ?b ?c] =>
    pose proof (always_expired_exhausts n Hsrv "POST" a b c) as Hauth;
    destruct (_realizar_request serve py_repr n "POST" a b c) as [[r2|e2] st2]
  end; cbn [fst] in Hauth; [discriminate|].
  inversion Hauth; subst. reflexivity.
Qed.

End WrapperOutcomes.

(** * More on the task life cycle *)

Section Uploads.

Variable serve : list Request -> Request -> NetResult.
Variable py_repr : json -> string.
Variable writable : string -> bool.
Variable file_of : string -> string.

Local Abbreviation rr := (_realizar_request serve py_repr).

(** X6: with a task started, [_adicionar_arquivo] on a path that leads to
    no file raises [OSError] when it opens the file: nothing has been sent and
    the state is the one before the call. *)
Theorem X6_upload_missing_file fuel arquivo st servidor task :
  servidor_url (self st) = Some servidor ->
  tarefa_id (self st) = Some task ->
  fs (world st) !! file_of arquivo = None ->
  _adicionar_arquivo serve py_repr file_of fuel arquivo st
  = (Raise (OSError arquivo), st).
Proof.
  intros Hs Ht Hf. unfold _adicionar_arquivo, bind, get_attr, open_rb.
  rewrite Hs, Ht, Hf. reflexivity.
Qed.

(** X7: a call of [_adicionar_arquivo] that returns has sent, as its last
    request, POST {servidor_url}/upload with the task id as form field and
    the file object it opened; the answer is a JSON object with
    [server_filename], and the list of uploaded files is the former list
    followed by one record pairing that name with the local path.  The
    request carries the file's content when it is the first request of the
    call; when the call had to re-authenticate, the request the server
    accepted carries an empty file, the file object having been read by the
    refused request and never rewound.  Task and files are unchanged. *)
Theorem X7_upload_appends_one_record fuel arquivo st st' :
  _adicionar_arquivo serve py_repr file_of fuel arquivo st = (Ret tt, st') ->
  exists servidor task bytes enviados r d nome pre,
    let carried := match pre with [] => bytes | _ :: _ => [] end in
    let req := mkRequest "POST" (servidor +:+ "/upload") (headers (self st'))
                 (mkKwargs (Some [("task", task)])
                           (Some [("file", (arquivo, carried))]) None) in
    servidor_url (self st) = Some servidor /\
    tarefa_id (self st) = Some task /\
    fs (world st) !! file_of arquivo = Some bytes /\
    arquivos (self st) = Some enviados /\
    trace (world st') = (trace (world st) ++ pre) ++ [req] /\
    serve (trace (world st) ++ pre) req = Answer r /\
    json_body r = Some (JObj d) /\
    dict_get "server_filename" d = Some nome /\
    arquivos (self st')
    = Some (enviados ++ [JObj [("server_filename", nome);
                               ("filename", JStr arquivo)]]) /\
    tarefa (self st') = tarefa (self st) /\
    tarefa_id (self st') = Some task /\
    servidor_url (self st') = Some servidor /\
    fs (world st') = fs (world st).
Proof.
  unfold _adicionar_arquivo, bind, get_attr, open_rb, eval, set_self.
  intros H.
  destruct (servidor_url (self st)) as [servidor|] eqn:Hs; [|discriminate].
  destruct (tarefa_id (self st)) as [task|] eqn:Ht; [|discriminate].
  destruct (fs (world st) !! file_of arquivo) as [bytes|] eqn:Hf;
    [|discriminate].
  destruct (rr fuel _ _ _ _) as [[r|e] st1] eqn:Hrr; [|discriminate].
  unfold response_json in H.
  destruct (json_body r) as [j|] eqn:Hj; [|discriminate].
  destruct (rr_ret _ _ _ _ _ _ _ _ _ Hrr) as (_ & pre & Htr & Hans).
  apply rr_frame in Hrr. destruct Hrr as (Hfs & Hself & _).
  assert (arquivos (self st1) = arquivos (self st)) as Ha
    by (rewrite Hself; reflexivity).
  rewrite Ha in H.
  destruct (arquivos (self st)) as [enviados|]; [|discriminate].
  destruct j as [| | | | |l|d]; try discriminate. cbn [subscript] in H.
  destruct (dict_get "server_filename" d) as [nome|] eqn:Hn; [|discriminate].
  inversion H; subst; clear H.
  exists servidor, task, bytes, enviados, r, d, nome, pre.
  assert (kwargs_after pre
            (mkKwargs (Some [("task", task)])
                      (Some [("file", (arquivo, bytes))]) None)
          = mkKwargs (Some [("task", task)])
                     (Some [("file", (arquivo,
                                      match pre with
                                      | [] => bytes
                                      | _ :: _ => []
                                      end))]) None) as Hkw
    by (destruct pre; reflexivity).
  cbv zeta in Htr, Hans. rewrite Hkw in Htr, Hans. cbn in *.
  rewrite Hself. cbn. rewrite Hs, Ht. repeat split; assumption.
Qed.

Lemma frame_task st st' :
  frame st st' ->
  arquivos (self st') = arquivos (self st) /\
  tarefa (self st') = tarefa (self st) /\
  tarefa_id (self st') = tarefa_id (self st) /\
  servidor_url (self st') = servidor_url (self st) /\
  fs (world st') = fs (world st).
Proof.
  intros (Hfs & Hself & _). rewrite Hself. cbn. repeat split. exact Hfs.
Qed.

Lemma adicionar_arquivo_raise_frame fuel arquivo st e st' :
  _adicionar_arquivo serve py_repr file_of fuel arquivo st = (Raise e, st') ->
  frame st st'.
Proof.
  unfold _adicionar_arquivo, bind, get_attr, open_rb, eval, set_self.
  intros H.
  destruct (servidor_url (self st)) as [servidor|];
    [|inversion H; subst; apply frame_refl].
  destruct (tarefa_id (self st)) as [task|];
    [|inversion H; subst; apply frame_refl].
  destruct (fs (world st) !! file_of arquivo) as [bytes|];
    [|inversion H; subst; apply frame_refl].
  destruct (rr fuel _ _ _ _) as [[r|e1] st1] eqn:Hrr; apply rr_frame in Hrr.
  - destruct (response_json r) as [j|e2]; [|inversion H; subst; exact Hrr].
    destruct (arquivos (self st1)); [|inversion H; subst; exact Hrr].
    destruct (subscript j "server_filename"); [discriminate|].
    inversion H; subst. exact Hrr.
  - inversion H; subst. exact Hrr.
Qed.

(** X8: a call of [_adicionar_arquivo] that raises, for whatever reason,
    leaves the list of uploaded files, the task and the files as they were;
    in particular an upload the server accepted but answered without
    [server_filename] is not recorded. *)
Theorem X8_failed_upload_records_nothing fuel arquivo st e st' :
  _adicionar_arquivo serve py_repr file_of fuel arquivo st = (Raise e, st') ->
  arquivos (self st') = arquivos (self st) /\
  tarefa (self st') = tarefa (self st) /\
  tarefa_id (self st') = tarefa_id (self st) /\
  servidor_url (self st') = servidor_url (self st) /\
  fs (world st') = fs (world st).
Proof.
  intros H. apply frame_task. exact (adicionar_arquivo_raise_frame _ _ _ _ _ H).
Qed.

End Uploads.

(** * The body of the process request *)

Lemma dict_get_set_eq k v d : dict_get k (dict_set k v d) = Some v.
Proof.
  induction d as [|[k' v'] d IH]; cbn.
  - rewrite String.eqb_refl. reflexivity.
  - destruct (String.eqb k k') eqn:E; cbn; rewrite E; [reflexivity|exact IH].
Qed.

Lemma dict_get_set_ne k k' v d :
  k <> k' -> dict_get k (dict_set k' v d) = dict_get k d.
Proof.
  intros Hne. apply String.eqb_neq in Hne.
  induction d as [|[k'' v''] d IH]; cbn.
  - rewrite Hne. reflexivity.
  - destruct (String.eqb k' k'') eqn:E; cbn.
    + apply String.eqb_eq in E. subst k''. rewrite Hne. reflexivity.
    + destruct (String.eqb k k''); [reflexivity|exact IH].
Qed.

Lemma dict_set_keys k v d :
  exists extra, map fst (dict_set k v d) = map fst d ++ extra.
Proof.
  induction d as [|[k' v'] d (extra & IH)]; cbn.
  - exists [k]. reflexivity.
  - destruct (String.eqb k k'); cbn.
    + exists []. rewrite app_nil_r. reflexivity.
    + exists extra. rewrite IH. reflexivity.
Qed.

Lemma dict_update_snoc d e k v :
  dict_update d (e ++ [(k, v)]) = dict_set k v (dict_update d e).
Proof.
  unfold dict_update. rewrite fold_left_app. reflexivity.
Qed.

(** X9: [json.update(kwargs)] in [_processar].  The last option given for a
    key decides its value, even for [task], [tool] and [files]; a key no
    option names keeps its value; and the fields already present keep their
    place, new ones following them. *)
Theorem X9_process_options_override (d e : list (string * json)) k :
  (forall v, dict_get k (dict_update d (e ++ [(k, v)])) = Some v) /\
  (Forall (fun kv => fst kv <> k) e ->
   dict_get k (dict_update d e) = dict_get k d) /\
  (exists extra, map fst (dict_update d e) = map fst d ++ extra).
Proof.
  split; [|split].
  - intros v. rewrite dict_update_snoc. apply dict_get_set_eq.
  - induction e as [|[k' v'] e IH] using rev_ind; intros Hall;
      [reflexivity|].
    apply Forall_app in Hall. destruct Hall as (Hall & Hlast).
    inversion Hlast; subst. cbn in *.
    rewrite dict_update_snoc, dict_get_set_ne by congruence.
    apply IH. exact Hall.
  - induction e as [|[k' v'] e (extra & IH)] using rev_ind.
    + exists []. rewrite app_nil_r. reflexivity.
    + rewrite dict_update_snoc.
      destruct (dict_set_keys k' v' (dict_update d e)) as (extra' & H).
      exists (extra ++ extra'). rewrite H, IH, app_assoc. reflexivity.
Qed.

Section Processing.

Variable serve : list Request -> Request -> NetResult.
Variable py_repr : json -> string.
Variable writable : string -> bool.
Variable file_of : string -> string.

Local Abbreviation rr := (_realizar_request serve py_repr).

(** X10: a call of [_processar] that returns has sent, as its last request,
    POST {servidor_url}/process whose JSON body is {task, tool, files}
    updated by the options, [files] being every uploaded record in upload
    order; the answer has a JSON body.  The list of uploaded files, the task
    and the files on disk are unchanged: processing consumes nothing. *)
Theorem X10_process_sends_all_records fuel kwargs st st' :
  _processar serve py_repr fuel kwargs st = (Ret tt, st') ->
  exists servidor task tool enviados r j pre,
    let req := mkRequest "POST" (servidor +:+ "/process") (headers (self st'))
                 (mkKwargs None None
                    (Some (JObj (dict_update
                                   [("task", task); ("tool", JStr tool);
                                    ("files", JArr enviados)] kwargs)))) in
    servidor_url (self st) = Some servidor /\
    tarefa_id (self st) = Some task /\
    tarefa (self st) = Some tool /\
    arquivos (self st) = Some enviados /\
    trace (world st') = (trace (world st) ++ pre) ++ [req] /\
    serve (trace (world st) ++ pre) req = Answer r /\
    json_body r = Some j /\
    arquivos (self st') = Some enviados /\
    tarefa (self st') = Some tool /\
    tarefa_id (self st') = Some task /\
    servidor_url (self st') = Some servidor /\
    fs (world st') = fs (world st).
Proof.
  unfold _processar, bind, get_attr, eval, ret. intros H.
  destruct (servidor_url (self st)) as [servidor|] eqn:Hs; [|discriminate].
  destruct (tarefa_id (self st)) as [task|] eqn:Ht; [|discriminate].
  destruct (tarefa (self st)) as [tool|] eqn:Hn; [|discriminate].
  destruct (arquivos (self st)) as [enviados|] eqn:Ha; [|discriminate].
  destruct (rr fuel _ _ _ _) as [[r|e] st1] eqn:Hrr; [|discriminate].
  unfold response_json in H.
  destruct (json_body r) as [j|] eqn:Hj; [|discriminate].
  inversion H; subst; clear H.
  destruct (rr_ret_no_files _ _ _ _ _ (mkKwargs None None _) _ _ _
                            eq_refl Hrr) as (_ & pre & Htr & Hans).
  apply rr_frame in Hrr. destruct Hrr as (Hfs & Hself & _).
  exists servidor, task, tool, enviados, r, j, pre. cbn.
  rewrite Hself. cbn. rewrite Hs, Ht, Hn, Ha. repeat split; assumption.
Qed.

(** X11: when the GET of [_download] returns a response but the output path
    cannot be opened for writing, [_download] raises [OSError] after the
    request has been sent, and the files are those before the call. *)
Theorem X11_download_unwritable_path fuel out st servidor task r st1 :
  servidor_url (self st) = Some servidor ->
  tarefa_id (self st) = Some task ->
  _realizar_request serve py_repr fuel "GET"
    (servidor +:+ "/download/" +:+ py_str py_repr task) no_kwargs st
  = (Ret r, st1) ->
  writable out = false ->
  _download serve py_repr writable file_of fuel out st
  = (Raise (OSError out), st1) /\
  fs (world st1) = fs (world st) /\
  exists tr req, trace (world st1) = tr ++ [req].
Proof.
  intros Hs Ht Hrr Hw. split; [|split].
  - unfold _download, bind, get_attr, write_wb. rewrite Hs, Ht, Hrr, Hw.
    reflexivity.
  - apply rr_frame in Hrr. apply Hrr.
  - destruct (rr_ret _ _ _ _ _ _ _ _ _ Hrr) as (_ & pre & Htr & _). eauto.
Qed.

(** X12: a call of [_nova_tarefa] that raises, for whatever reason, has
    already emptied the list of uploaded files and stored the new task name,
    while the task id and the server URL are still those of the task before
    it (or still unset). *)
Theorem X12_failed_start_keeps_old_task_id fuel t st e st' :
  _nova_tarefa serve py_repr fuel t st = (Raise e, st') ->
  arquivos (self st') = Some [] /\
  tarefa (self st') = Some t /\
  tarefa_id (self st') = tarefa_id (self st) /\
  servidor_url (self st') = servidor_url (self st) /\
  fs (world st') = fs (world st).
Proof.
  unfold _nova_tarefa, bind, set_self, attr, eval.
  cbn [self world base_url with_tarefa with_arquivos]. intros H.
  destruct (rr fuel _ _ _ _) as [[r|e1] st1] eqn:Hrr;
    apply rr_frame in Hrr; apply frame_task in Hrr; cbn in Hrr;
    destruct Hrr as (Ha & Hn & Ht & Hs & Hfs).
  - destruct (response_json r) as [j|e2];
      [|inversion H; subst; repeat split; assumption].
    destruct (subscript j "server");
      [|inversion H; subst; repeat split; assumption].
    destruct (subscript j "task"); [discriminate|].
    inversion H; subst; repeat split; assumption.
  - inversion H; subst; repeat split; assumption.
Qed.

End Processing.

(** * What a sequence of calls can change *)

Lemma within_refl P st : within P st st.
Proof.
  repeat split. exists []. symmetry. apply app_nil_r.
Qed.

Lemma within_trans P st1 st2 st3 :
  within P st1 st2 -> within P st2 st3 -> within P st1 st3.
Proof.
  intros (Hb1 & Hp1 & Hk1 & (n1 & Ht1) & Hf1) (Hb2 & Hp2 & Hk2 & (n2 & Ht2) &
      Hf2).
  repeat split; try congruence.
  - exists (n1 ++ n2). rewrite Ht2, Ht1, app_assoc. reflexivity.
  - intros path Hno. rewrite Hf2, Hf1 by exact Hno. reflexivity.
Qed.

Lemma within_weaken (P Q : string -> Prop) st st' :
  (forall path, P path -> Q path) -> within P st st' -> within Q st st'.
Proof.
  intros HPQ (Hb & Hp & Hk & Ht & Hf). repeat split; try assumption.
  intros path Hno. apply Hf. intros HP. apply Hno, HPQ, HP.
Qed.

Lemma frame_within P st st' : frame st st' -> within P st st'.
Proof.
  intros (Hfs & Hself & Htr). unfold within. rewrite Hself, Hfs. cbn.
  repeat split. exact Htr.
Qed.

Lemma confined_bind {A B} P (m : M A) (k : A -> M B) :
  confined P m -> (forall a, confined P (k a)) -> confined P (bind m k).
Proof.
  intros Hm Hk st. unfold bind. specialize (Hm st).
  destruct (m st) as [[a|e] st1]; cbn [snd] in *; [|exact Hm].
  eapply within_trans; [exact Hm|apply Hk].
Qed.

Lemma confined_pure {A} P (m : M A) :
  (forall st, snd (m st) = st) -> confined P m.
Proof.
  intros H st. rewrite H. apply within_refl.
Qed.

Lemma confined_get_attr {A} P name (proj : ILovePdf -> option A) :
  confined P (get_attr name proj).
Proof.
  apply confined_pure. intros st. unfold get_attr.
  destruct (proj (self st)); reflexivity.
Qed.

Lemma confined_open_rb (file_of : string -> string) P path :
  confined P (open_rb file_of path).
Proof.
  apply confined_pure. intros st. unfold open_rb.
  destruct (fs (world st) !! file_of path); reflexivity.
Qed.

Lemma confined_set_self P (f : ILovePdf -> ILovePdf) :
  (forall s, base_url (f s) = base_url s /\
             chave_publica (f s) = chave_publica s /\
             chave_secreta (f s) = chave_secreta s) ->
  confined P (set_self f).
Proof.
  intros Hf st. destruct (Hf (self st)) as (Hb & Hp & Hk).
  unfold set_self, within. cbn. repeat split; try assumption.
  exists []. symmetry. apply app_nil_r.
Qed.

Section Confinement.

Variable serve : list Request -> Request -> NetResult.
Variable py_repr : json -> string.
Variable writable : string -> bool.
Variable file_of : string -> string.

Lemma confined_rr P fuel m u kw :
  confined P (_realizar_request serve py_repr fuel m u kw).
Proof.
  intros st. apply frame_within.
  destruct (_realizar_request serve py_repr fuel m u kw st) as [o st'] eqn:H.
  exact (rr_frame _ _ _ _ _ _ _ _ _ H).
Qed.

Lemma confined_write_wb out bytes :
  confined (eq (file_of out)) (write_wb writable file_of out bytes).
Proof.
  intros st. unfold write_wb.
  destruct (writable out); cbn [snd]; [|apply within_refl].
  unfold within. cbn. repeat split.
  - exists []. symmetry. apply app_nil_r.
  - intros file Hne. apply lookup_insert_ne. exact Hne.
Qed.

Local Ltac confined_steps :=
  repeat first
    [ apply confined_bind; [|intros ?]
    | apply confined_rr
    | apply confined_get_attr
    | apply confined_open_rb
    | apply confined_set_self; intros ?; repeat split
    | apply confined_pure; intros ?; reflexivity ].

Lemma confined_nova_tarefa P fuel t :
  confined P (_nova_tarefa serve py_repr fuel t).
Proof. unfold _nova_tarefa. confined_steps. Qed.

Lemma confined_adicionar_arquivo P fuel a :
  confined P (_adicionar_arquivo serve py_repr file_of fuel a).
Proof. unfold _adicionar_arquivo. confined_steps. Qed.

Lemma confined_processar P fuel kw :
  confined P (_processar serve py_repr fuel kw).
Proof. unfold _processar. confined_steps. Qed.

Lemma confined_download fuel out :
  confined (eq (file_of out))
           (_download serve py_repr writable file_of fuel out).
Proof. unfold _download. confined_steps. apply confined_write_wb. Qed.

Lemma confined_call fuel c :
  confined (fun file => exists out, call_output c = Some out /\
                                    file_of out = file)
           (call serve py_repr writable file_of fuel c).
Proof.
  destruct c as [i o|t|a|kw|o]; cbn [call call_output].
  - unfold comprimir. cbv zeta.
    apply confined_bind; [apply confined_nova_tarefa|intros _].
    apply confined_bind; [apply confined_adicionar_arquivo|intros _].
    apply confined_bind; [apply confined_processar|intros _].
    intros st. eapply within_weaken; [|apply confined_download].
    intros file <-. eexists. split; reflexivity.
  - apply confined_nova_tarefa.
  - apply confined_adicionar_arquivo.
  - apply confined_processar.
  - intros st. eapply within_weaken; [|apply confined_download].
    intros file <-. eexists. split; reflexivity.
Qed.

Lemma confined_calls fuel cs : forall st,
  within (fun file => exists c out, In c cs /\ call_output c = Some out /\
                                    file_of out = file)
         st (snd (calls serve py_repr writable file_of fuel cs st)).
Proof.
  induction cs as [|c cs IH]; intros st; cbn [calls]; [apply within_refl|].
  pose proof (confined_call fuel c st) as Hc.
  destruct (call serve py_repr writable file_of fuel c st) as [o st1].
  cbn [snd] in Hc. specialize (IH st1).
  destruct (calls serve py_repr writable file_of fuel cs st1) as [os st2].
  cbn [snd] in *. eapply within_trans.
  - eapply within_weaken; [|exact Hc].
    intros file (out & H & Hf). exists c, out.
    split; [left; reflexivity|split; assumption].
  - eapply within_weaken; [|exact IH].
    intros file (c' & out & Hin & H & Hf). exists c', out.
    split; [right; exact Hin|split; assumption].
Qed.

(** X13: after any sequence of method calls, however each of them ended, a
    file that the output path of none of them leads to ([comprimir]'s
    resolved output, [_download]'s argument) holds what it held before: the
    class writes nowhere else, and never deletes a file.  A file is
    overwritten through any path that leads to it, so the condition is on
    the files the output paths lead to, not on how they are spelled. *)
Theorem X13_calls_write_only_output_paths fuel cs st file :
  (forall c out, In c cs -> call_output c = Some out -> file_of out <> file) ->
  fs (world (snd (calls serve py_repr writable file_of fuel cs st))) !! file
  = fs (world st) !! file.
Proof.
  intros Hno. destruct (confined_calls fuel cs st) as (_ & _ & _ & _ & Hf).
  apply Hf. intros (c & out & Hin & H & Hfile). exact (Hno c out Hin H Hfile).
Qed.

(** X14: after any sequence of method calls, however each of them ended,
    the object still has the base URL and the two keys it had, and the
    requests sent before are still there, in order, followed by the new
    ones. *)
Theorem X14_calls_keep_keys_and_history fuel cs st :
  base_url (self (snd (calls serve py_repr writable file_of fuel cs st)))
  = base_url (self st) /\
  chave_publica (self (snd (calls serve py_repr writable file_of fuel cs st)))
  = chave_publica (self st) /\
  chave_secreta (self (snd (calls serve py_repr writable file_of fuel cs st)))
  = chave_secreta (self st) /\
  exists new,
    trace (world (snd (calls serve py_repr writable file_of fuel cs st)))
    = trace (world st) ++ new.
Proof.
  destruct (confined_calls fuel cs st) as (Hb & Hp & Hk & Ht & _).
  repeat split; assumption.
Qed.

End Confinement.

(** * A whole compression *)

Lemma drop_last4_short (p : string) :
  (String.length p <= 4)%nat -> drop_last4 p = "".
Proof.
  intros H. unfold drop_last4.
  replace (String.length p - 4)%nat with 0%nat by lia.
  destruct p; reflexivity.
Qed.

(** X15: the output path [comprimir] resolves.  A given path that is not
    empty is used as it is; the empty string counts as no path; and for an
    input of at most four characters the default is "_compresso.pdf" alone,
    nothing of the input being kept. *)
Theorem X15_output_path_edges (p out : string) :
  (out <> "" -> resolve_output p (Some out) = out) /\
  resolve_output p (Some "") = resolve_output p None /\
  ((String.length p <= 4)%nat -> resolve_output p None = "_compresso.pdf").
Proof.
  split; [|split].
  - intros Hne. unfold resolve_output. apply String.eqb_neq in Hne.
    rewrite Hne. reflexivity.
  - reflexivity.
  - intros Hlen. unfold resolve_output. rewrite drop_last4_short by exact Hlen.
    reflexivity.
Qed.

Section Compression.

Variable serve : list Request -> Request -> NetResult.
Variable py_repr : json -> string.
Variable writable : string -> bool.
Variable file_of : string -> string.

(** When the server answers the upload request with a status that is not an
    error and a JSON object holding [server_filename], [_adicionar_arquivo]
    returns. *)
Lemma adicionar_arquivo_returns fuel arquivo st servidor task bytes enviados
    r d nome :
  let req := mkRequest "POST" (servidor +:+ "/upload") (headers (self st))
               (mkKwargs (Some [("task", task)])
                         (Some [("file", (arquivo, bytes))]) None) in
  servidor_url (self st) = Some servidor ->
  tarefa_id (self st) = Some task ->
  fs (world st) !! file_of arquivo = Some bytes ->
  arquivos (self st) = Some enviados ->
  serve (trace (world st)) req = Answer r ->
  raise_for_status r = false ->
  json_body r = Some (JObj d) ->
  dict_get "server_filename" d = Some nome ->
  _adicionar_arquivo serve py_repr file_of (S fuel) arquivo st
  = (Ret tt,
     mkState (with_arquivos
                (enviados ++ [JObj [("server_filename", nome);
                                    ("filename", JStr arquivo)]]) (self st))
             (world (sent req st))).
Proof.
  intros req Hs Ht Hf Ha Hserve Hok Hj Hn.
  unfold _adicionar_arquivo, bind, get_attr, open_rb, eval, set_self.
  rewrite Hs, Ht, Hf, rr_S. cbv zeta. fold req. rewrite Hserve, Hok.
  unfold response_json. rewrite Hj. cbn [sent self]. rewrite Ha.
  cbn [subscript]. rewrite Hn. reflexivity.
Qed.

(** When the server answers the process request with a status that is not an
    error and a JSON body, [_processar] returns. *)
Lemma processar_returns fuel kwargs st servidor task tool enviados r j :
  let req := mkRequest "POST" (servidor +:+ "/process") (headers (self st))
               (mkKwargs None None
                  (Some (JObj (dict_update
                                 [("task", task); ("tool", JStr tool);
                                  ("files", JArr enviados)] kwargs)))) in
  servidor_url (self st) = Some servidor ->
  tarefa_id (self st) = Some task ->
  tarefa (self st) = Some tool ->
  arquivos (self st) = Some enviados ->
  serve (trace (world st)) req = Answer r ->
  raise_for_status r = false ->
  json_body r = Some j ->
  _processar serve py_repr (S fuel) kwargs st = (Ret tt, sent req st).
Proof.
  intros req Hs Ht Hn Ha Hserve Hok Hj.
  unfold _processar, bind, get_attr, eval, ret.
  rewrite Hs, Ht, Hn, Ha, rr_S. cbv zeta. fold req. rewrite Hserve, Hok.
  unfold response_json. rewrite Hj. reflexivity.
Qed.

(** X16: one compression from start to end.  When the input file exists, the
    output path can be written, and the server answers each of the four
    requests in turn with a status that is not an error and the body the
    step reads (server and task; server_filename; any JSON; the result),
    [comprimir] returns having sent exactly those four requests, all under
    the header dict it started with.  The output path then holds the body of
    the last answer, and the object holds the new task with its one
    uploaded record. *)
Theorem X16_comprimir_four_requests
    fuel input output st bytes r1 d1 servidor task r2 d2 nome r3 j3 r4 :
  let out := resolve_output input output in
  let h := headers (self st) in
  let tr := trace (world st) in
  let su := "https://" +:+ py_str py_repr servidor +:+ "/v1" in
  let record := JObj [("server_filename", nome); ("filename", JStr input)] in
  let q1 := mkRequest "GET" (base_url (self st) +:+ "/start/" +:+ "compress")
                      h no_kwargs in
  let q2 := mkRequest "POST" (su +:+ "/upload") h
              (mkKwargs (Some [("task", task)])
                        (Some [("file", (input, bytes))]) None) in
  let q3 := mkRequest "POST" (su +:+ "/process") h
              (mkKwargs None None
                 (Some (JObj [("task", task); ("tool", JStr "compress");
                              ("files", JArr [record])]))) in
  let q4 := mkRequest "GET" (su +:+ "/download/" +:+ py_str py_repr task)
                      h no_kwargs in
  fs (world st) !! file_of input = Some bytes ->
  writable out = true ->
  serve tr q1 = Answer r1 -> raise_for_status r1 = false ->
  json_body r1 = Some (JObj d1) ->
  dict_get "server" d1 = Some servidor -> dict_get "task" d1 = Some task ->
  serve (tr ++ [q1]) q2 = Answer r2 -> raise_for_status r2 = false ->
  json_body r2 = Some (JObj d2) ->
  dict_get "server_filename" d2 = Some nome ->
  serve (tr ++ [q1; q2]) q3 = Answer r3 -> raise_for_status r3 = false ->
  json_body r3 = Some j3 ->
  serve (tr ++ [q1; q2; q3]) q4 = Answer r4 -> raise_for_status r4 = false ->
  comprimir serve py_repr writable file_of (S fuel) input output st
  = (Ret tt,
     mkState (mkILovePdf (base_url (self st)) (chave_publica (self st))
                         (chave_secreta (self st)) h (Some [record])
                         (Some "compress") (Some task) (Some su))
             (mkWorld (tr ++ [q1; q2; q3; q4])
                      (<[file_of out := content r4]> (fs (world st)))
                      (stdout (world st)))).
Proof.
  intros out h tr su record q1 q2 q3 q4 Hin Hw
    H1 Hok1 Hj1 Hsv Htk H2 Hok2 Hj2 Hnm H3 Hok3 Hj3 H4 Hok4.
  unfold comprimir. cbv zeta. fold out. unfold bind at 1.
  rewrite (nova_tarefa_returns serve py_repr fuel "compress" st r1 d1 servidor
             task H1 Hok1 Hj1 Hsv Htk).
  fold su. fold h. fold q1.
  set (st1 := mkState _ (world (sent q1 st))).
  unfold bind at 1.
  rewrite (adicionar_arquivo_returns fuel input st1 su task bytes [] r2 d2 nome
             eq_refl eq_refl Hin eq_refl);
    [|exact H2|exact Hok2|exact Hj2|exact Hnm].
  fold record. cbn [app].
  set (st2 := mkState _ _).
  unfold bind at 1.
  rewrite (processar_returns fuel [] st2 su task "compress" [record] r3 j3
             eq_refl eq_refl eq_refl eq_refl);
    [|subst st2 st1; cbn [sent self world trace headers with_arquivos];
      rewrite <- app_assoc; exact H3|exact Hok3|exact Hj3].
  set (st3 := sent _ st2).
  rewrite (download_returns serve py_repr writable file_of fuel out st3 su task
      r4
             eq_refl eq_refl);
    [|subst st3 st2 st1; cbn [sent self world trace headers with_arquivos];
      rewrite <- !app_assoc; exact H4|exact Hok4|exact Hw].
  subst st3 st2 st1.
  cbn [sent self world trace headers with_arquivos fs stdout base_url
       chave_publica chave_secreta arquivos tarefa tarefa_id servidor_url
       dict_update fold_left].
  rewrite <- !app_assoc. reflexivity.
Qed.

End Compression.

(** * The further statements at work on the test doubles *)

(** The start request answered at once by [demo_server]. *)
Lemma X2_wrapper_returns_answer_to_last_request_witness :
  _realizar_request demo_server demo_repr 1 "GET" demo_start_url no_kwargs
                    demo_state_idle
  = (Ret (json_response 200 (JObj [("server", JStr "s1.ilovepdf.com");
                                   ("task", JStr "t1")])),
     sent (demo_start_request (bearer "tok1")) demo_state_idle) /\
  ~ (400 <= 200 < 600).
Proof.
  assert (_realizar_request demo_server demo_repr 1 "GET" demo_start_url
                            no_kwargs demo_state_idle
          = (Ret (json_response 200 (JObj [("server", JStr "s1.ilovepdf.com");
                                           ("task", JStr "t1")])),
             sent (demo_start_request (bearer "tok1")) demo_state_idle)) as H
    by (vm_compute; reflexivity).
  split; [exact H|].
  exact (proj1 (X2_wrapper_returns_answer_to_last_request demo_server demo_repr
                  1 "GET" demo_start_url no_kwargs demo_state_idle _ _ H)).
Defined.

(** The start request on [auth_down_server]: the error raised is the 500 of
    the auth endpoint, and its text is the last line printed. *)
Lemma X3_wrapper_http_error_witness :
  exists st',
    _realizar_request auth_down_server demo_repr 2 "GET" demo_start_url
                      no_kwargs demo_state_idle
    = (Raise (HTTPError auth_down), st') /\
    400 <= status_code auth_down < 600 /\
    exists out, stdout (world st') = out ++ [text auth_down].
Proof.
  eexists. 
  assert (_realizar_request auth_down_server demo_repr 2 "GET" demo_start_url
                            no_kwargs demo_state_idle
          = (Raise (HTTPError auth_down),
             printed "{status: 500}"
               (sent (demo_auth_request (bearer "tok1"))
                  (printed "Token expirado. Solicitando novo..."
                     (sent (demo_start_request (bearer "tok1"))
                           demo_state_idle))))) as H
    by (vm_compute; reflexivity).
  split; [exact H|].
  destruct (X3_wrapper_http_error auth_down_server demo_repr 2 "GET"
              demo_start_url no_kwargs demo_state_idle _ _ H)
    as (Hs & _ & Hout & _).
  split; [exact Hs|exact Hout].
Defined.

(** An unknown tool on [demo_server]: the 404 has no JSON body, and the
    caller gets [JSONDecodeError]. *)
Lemma X4_error_body_without_status_witness :
  _realizar_request demo_server demo_repr 1 "GET"
                    "https://api.ilovepdf.com/v1/start/merge" no_kwargs
                    demo_state_idle
  = (Raise JSONDecodeError,
     sent (mkRequest "GET" "https://api.ilovepdf.com/v1/start/merge"
                     (bearer "tok1") no_kwargs) demo_state_idle).
Proof.
  refine (proj1 (X4_error_body_without_status demo_server demo_repr 0 "GET"
                   "https://api.ilovepdf.com/v1/start/merge" no_kwargs
                   demo_state_idle (binary_response 404 []) eq_refl _)
                eq_refl).
  simpl. lia.
Defined.

Lemma refusing_server_always_expired : always_expired refusing_server.
Proof.
  intros tr req. exists expired, (JInt 401). repeat split.
Qed.

(** Construction on [refusing_server] with room for seven activations. *)
Lemma X5_always_expired_never_returns_witness :
  fst (__init__ refusing_server demo_repr 7 "project_public" "secret_key"
                demo_world) = Raise RecursionError.
Proof.
  exact (proj2 (X5_always_expired_never_returns refusing_server demo_repr 7
                  "GET" demo_start_url no_kwargs demo_state_idle
                  "project_public" "secret_key" demo_world
                  refusing_server_always_expired)).
Defined.

(** Uploading a file that is not there. *)
Lemma X6_upload_missing_file_witness :
  _adicionar_arquivo demo_server demo_repr demo_file_of 1 "absent.pdf"
      demo_state_started
  = (Raise (OSError "absent.pdf"), demo_state_started).
Proof.
  refine (X6_upload_missing_file demo_server demo_repr demo_file_of 1
      "absent.pdf"
            demo_state_started "https://s1.ilovepdf.com/v1" (JStr "t1")
            eq_refl eq_refl _).
  vm_compute. reflexivity.
Defined.

(** Uploading "report.pdf" on [renewing_server] under a stale token: the
    first upload is refused, and the upload the server accepts after the
    re-authentication carries no content. *)
Lemma X7_upload_appends_one_record_witness :
  exists st',
    _adicionar_arquivo renewing_server demo_repr demo_file_of 2 "report.pdf"
                       demo_state_started = (Ret tt, st') /\
    fs (world st') = fs (world demo_state_started) /\
    arquivos (self st') = Some [demo_record] /\
    trace (world st')
    = [demo_start_request (bearer "tok1");
       demo_upload_request (bearer "tok1");
       demo_auth_request (bearer "tok1");
       mkRequest "POST" "https://s1.ilovepdf.com/v1/upload" (bearer "fresh")
                 (mkKwargs (Some [("task", JStr "t1")])
                           (Some [("file", ("report.pdf", []))]) None)].
Proof.
  exists (snd (_adicionar_arquivo renewing_server demo_repr demo_file_of 2
                                  "report.pdf" demo_state_started)).
  assert (_adicionar_arquivo renewing_server demo_repr demo_file_of 2
                             "report.pdf" demo_state_started
          = (Ret tt,
             snd (_adicionar_arquivo renewing_server demo_repr demo_file_of 2
                                     "report.pdf" demo_state_started))) as H
    by (vm_compute; reflexivity).
  split; [exact H|]. split; [|split; vm_compute; reflexivity].
  destruct (X7_upload_appends_one_record renewing_server demo_repr
              demo_file_of 2 "report.pdf" demo_state_started _ H)
    as (servidor & task & bytes & enviados & r & d & nome & pre & Hrest).
  apply Hrest.
Defined.

(** On the test machine "./report.pdf" leads to the file "report.pdf": a
    compression of "report.pdf" into "./report.pdf" replaces its input. *)
Lemma comprimir_over_its_input :
  fs (world (snd (comprimir demo_server demo_repr demo_writable demo_file_of 1
                            "report.pdf" (Some "./report.pdf")
                            demo_state_idle)))
     !! "report.pdf"
  = Some demo_result.
Proof. vm_compute. reflexivity. Qed.

(** An upload that fails on [auth_down_server]. *)
Lemma X8_failed_upload_records_nothing_witness :
  fst (_adicionar_arquivo auth_down_server demo_repr demo_file_of 2 "report.pdf"
                          demo_state_started)
  = Raise (HTTPError auth_down) /\
  arquivos (self (snd (_adicionar_arquivo auth_down_server demo_repr
      demo_file_of 2
                                          "report.pdf" demo_state_started)))
  = arquivos (self demo_state_started).
Proof.
  assert (_adicionar_arquivo auth_down_server demo_repr demo_file_of 2
      "report.pdf"
                             demo_state_started
          = (Raise (HTTPError auth_down),
             snd (_adicionar_arquivo auth_down_server demo_repr demo_file_of 2
                                     "report.pdf" demo_state_started))) as H
    by (vm_compute; reflexivity).
  split; [vm_compute; reflexivity|].
  exact (proj1 (X8_failed_upload_records_nothing auth_down_server demo_repr
      demo_file_of 2
                  "report.pdf" demo_state_started _ _ H)).
Defined.

(** An option that names none of the three fields leaves the task id. *)
Lemma X9_process_options_override_witness :
  dict_get "task"
    (dict_update [("task", JStr "t1"); ("tool", JStr "compress");
                  ("files", JArr [])]
                 [("compression_level", JStr "extreme")])
  = Some (JStr "t1").
Proof.
  refine (proj1 (proj2 (X9_process_options_override
                          [("task", JStr "t1"); ("tool", JStr "compress");
                           ("files", JArr [])]
                          [("compression_level", JStr "extreme")] "task")) _).
  repeat constructor. simpl. discriminate.
Defined.

(** Processing the uploaded "report.pdf" on [demo_server]. *)
Lemma X10_process_sends_all_records_witness :
  exists st',
    _processar demo_server demo_repr 1 [] demo_state_uploaded = (Ret tt, st') /\
    arquivos (self st') = Some [demo_record].
Proof.
  exists (snd (_processar demo_server demo_repr 1 [] demo_state_uploaded)).
  assert (_processar demo_server demo_repr 1 [] demo_state_uploaded
          = (Ret tt,
             snd (_processar demo_server demo_repr 1 [] demo_state_uploaded)))
    as H by (vm_compute; reflexivity).
  split; [exact H|].
  destruct (X10_process_sends_all_records demo_server demo_repr 1 []
              demo_state_uploaded _ H)
    as (servidor & task & tool & enviados & r & j & pre
        & _ & _ & _ & Ha & _ & _ & _ & Ha' & _).
  rewrite Ha'. rewrite <- Ha. reflexivity.
Defined.

(** Downloading to a path that cannot be opened. *)
Lemma X11_download_unwritable_path_witness :
  demo_writable "/proc/locked.pdf" = false /\
  _download demo_server demo_repr demo_writable demo_file_of 1
      "/proc/locked.pdf"
            demo_state_started
  = (Raise (OSError "/proc/locked.pdf"),
     sent (demo_download_request (bearer "tok1")) demo_state_started).
Proof.
  split; [reflexivity|].
  refine (proj1 (X11_download_unwritable_path demo_server demo_repr
      demo_writable demo_file_of 1 "/proc/locked.pdf" demo_state_started
                   "https://s1.ilovepdf.com/v1" (JStr "t1")
                   (binary_response 200 demo_result)
                   (sent (demo_download_request (bearer "tok1"))
                         demo_state_started)
                   eq_refl eq_refl _ eq_refl)).
  vm_compute. reflexivity.
Defined.

(** Starting a merge task fails on [auth_down_server] after a compress task:
    the object pairs the new task name with the old task id. *)
Lemma X12_failed_start_keeps_old_task_id_witness :
  exists e st',
    _nova_tarefa auth_down_server demo_repr 2 "merge" demo_state_uploaded
    = (Raise e, st') /\
    arquivos (self st') = Some [] /\
    tarefa (self st') = Some "merge" /\
    tarefa_id (self st') = Some (JStr "t1").
Proof.
  exists (HTTPError auth_down),
         (snd (_nova_tarefa auth_down_server demo_repr 2 "merge"
                            demo_state_uploaded)).
  assert (_nova_tarefa auth_down_server demo_repr 2 "merge" demo_state_uploaded
          = (Raise (HTTPError auth_down),
             snd (_nova_tarefa auth_down_server demo_repr 2 "merge"
                               demo_state_uploaded))) as H
    by (vm_compute; reflexivity).
  split; [exact H|].
  destruct (X12_failed_start_keeps_old_task_id auth_down_server demo_repr 2
              "merge" demo_state_uploaded _ _ H) as (Ha & Hn & Ht & _).
  split; [exact Ha|]. split; [exact Hn|]. rewrite Ht. reflexivity.
Defined.

(** A compression of "report.pdf" leaves "report.pdf" as it was. *)
Lemma X13_calls_write_only_output_paths_witness :
  fs (world (snd (calls demo_server demo_repr demo_writable demo_file_of 1
                        [CallComprimir "report.pdf" None] demo_state_idle)))
     !! "report.pdf"
  = Some demo_pdf.
Proof.
  rewrite (X13_calls_write_only_output_paths demo_server demo_repr demo_writable
      demo_file_of 1 [CallComprimir "report.pdf" None]
             demo_state_idle "report.pdf").
  - vm_compute. reflexivity.
  - intros c out [<-|[]] H. inversion H; subst. vm_compute. discriminate.
Defined.

(** The three cases on small paths. *)
Lemma X15_output_path_edges_witness :
  resolve_output "a.b" (Some "out.pdf") = "out.pdf" /\
  resolve_output "a.b" None = "_compresso.pdf".
Proof.
  destruct (X15_output_path_edges "a.b" "out.pdf") as (H1 & _ & H3).
  split.
  - apply H1. discriminate.
  - apply H3. vm_compute. lia.
Defined.

(** One compression of "report.pdf" on [demo_server]. *)
Lemma X16_comprimir_four_requests_witness :
  exists s,
    comprimir demo_server demo_repr demo_writable demo_file_of 1 "report.pdf"
        None
              demo_state_idle
    = (Ret tt,
       mkState s
               (mkWorld [demo_start_request (bearer "tok1");
                         demo_upload_request (bearer "tok1");
                         mkRequest "POST" "https://s1.ilovepdf.com/v1/process"
                           (bearer "tok1")
                           (mkKwargs None None
                              (Some (JObj [("task", JStr "t1");
                                           ("tool", JStr "compress");
                                           ("files", JArr [demo_record])])));
                         demo_download_request (bearer "tok1")]
                        (<["report_compresso.pdf" := demo_result]>
                           (fs demo_world))
                        [])).
Proof.
  eexists.
  refine (X16_comprimir_four_requests demo_server demo_repr demo_writable
      demo_file_of 0
            "report.pdf" None demo_state_idle demo_pdf
            (json_response 200 (JObj [("server", JStr "s1.ilovepdf.com");
                                      ("task", JStr "t1")]))
            [("server", JStr "s1.ilovepdf.com"); ("task", JStr "t1")]
            (JStr "s1.ilovepdf.com") (JStr "t1")
            (json_response 200 (JObj [("server_filename", JStr "f1.pdf")]))
            [("server_filename", JStr "f1.pdf")] (JStr "f1.pdf")
            (json_response 200 (JObj [("status", JStr "TaskSuccess")]))
            (JObj [("status", JStr "TaskSuccess")])
            (binary_response 200 demo_result)
            _ _ _ _ _ _ _ _ _ _ _ _ _ _ _ _); vm_compute; reflexivity.
Defined.
